(** * Flight simulator core: height field, flight dynamics, crash state
      machine and particle ring buffers

    A shallow embedding of the simulation loop of [js/main.js] (the
    revision with touch controls) together with the keyboard-only revision
    of the same file, whose [animate] differs in how input is read and in
    the idle-decay rule.

    Conventions of the embedding.
    - A JavaScript number is a real number [R]: [+], [-], [*], [/],
      [Math.sqrt], [Math.sin], [Math.cos], [Math.exp] and [Math.pow] are the
      real functions.  IEEE-754 rounding, NaN and the infinities are outside
      the model, and a [Float32Array] stores the value it is given.
    - [Math.random()] is the host's sequence of draws [rng], consumed through
      the counter [rngUsed].
    - [THREE.Clock] is its [elapsedTime]; each query of the clock receives
      the wall-clock time elapsed since the previous query from the frame
      that is being processed.
    - [setTimeout] / [clearTimeout] act on the set of pending host timers;
      timer identifiers are positive, hence truthy.
    - Module-level [let]/[const] bindings are fields of the record [World],
      grouped by subsystem. *)

From Stdlib Require Import Reals Lra Lia ZArith.
From stdpp Require Import gmap strings list.

Local Open Scope R_scope.

(** ** Comparisons of numbers are decidable *)

#[global] Instance Rlt_decision (a b : R) : Decision (a < b) := Rlt_dec a b.
#[global] Instance Rle_decision (a b : R) : Decision (a <= b) := Rle_dec a b.
#[global] Instance Rgt_decision (a b : R) : Decision (a > b) := Rgt_dec a b.
#[global] Instance Rge_decision (a b : R) : Decision (a >= b) := Rge_dec a b.
#[global] Instance Req_decision : EqDecision R := Req_dec_T.

(** [Math.ceil] on a number, as an integer. *)
Definition Math_ceil (a : R) : Z := (1 - up (- a))%Z.

(** ** The parts of three.js the simulation calls *)

Module THREE.

(** [typeof THREE !== 'undefined']: the namespace is a static import. *)
Definition defined : bool := true.

Module MathUtils.
Definition clamp (value lo hi : R) : R := Rmax lo (Rmin hi value).

Definition smoothstep (v lo hi : R) : R :=
  if decide (v <= lo) then 0
  else if decide (v >= hi) then 1
  else let t := (v - lo) / (hi - lo) in t * t * (3 - 2 * t).

Definition lerp (a b t : R) : R := (1 - t) * a + t * b.
End MathUtils.

Record Vector3 := vec3 { v_x : R; v_y : R; v_z : R }.

Record Quaternion := quat { q_x : R; q_y : R; q_z : R; q_w : R }.

Module V3.
Definition zero : Vector3 := vec3 0 0 0.
Definition lengthSq (v : Vector3) : R :=
  v_x v * v_x v + v_y v * v_y v + v_z v * v_z v.
Definition length (v : Vector3) : R := sqrt (lengthSq v).
Definition multiplyScalar (v : Vector3) (s : R) : Vector3 :=
  vec3 (v_x v * s) (v_y v * s) (v_z v * s).
Definition divideScalar (v : Vector3) (s : R) : Vector3 :=
  multiplyScalar v (1 / s).
(** [divideScalar(this.length() || 1)] *)
Definition normalize (v : Vector3) : Vector3 :=
  divideScalar v (if decide (length v = 0) then 1 else length v).
Definition add (a b : Vector3) : Vector3 :=
  vec3 (v_x a + v_x b) (v_y a + v_y b) (v_z a + v_z b).
Definition addScaledVector (a b : Vector3) (s : R) : Vector3 :=
  vec3 (v_x a + v_x b * s) (v_y a + v_y b * s) (v_z a + v_z b * s).
Definition lerp (a b : Vector3) (alpha : R) : Vector3 :=
  vec3 (v_x a + (v_x b - v_x a) * alpha)
       (v_y a + (v_y b - v_y a) * alpha)
       (v_z a + (v_z b - v_z a) * alpha).
Definition applyQuaternion (v : Vector3) (q : Quaternion) : Vector3 :=
  let tx := 2 * (q_y q * v_z v - q_z q * v_y v) in
  let ty := 2 * (q_z q * v_x v - q_x q * v_z v) in
  let tz := 2 * (q_x q * v_y v - q_y q * v_x v) in
  vec3 (v_x v + q_w q * tx + q_y q * tz - q_z q * ty)
       (v_y v + q_w q * ty + q_z q * tx - q_x q * tz)
       (v_z v + q_w q * tz + q_x q * ty - q_y q * tx).
Definition set_x (v : Vector3) (a : R) : Vector3 := vec3 a (v_y v) (v_z v).
Definition set_y (v : Vector3) (a : R) : Vector3 := vec3 (v_x v) a (v_z v).
Definition set_z (v : Vector3) (a : R) : Vector3 := vec3 (v_x v) (v_y v) a.
End V3.

Module Quat.
Definition identity : Quaternion := quat 0 0 0 1.
Definition setFromAxisAngle (axis : Vector3) (angle : R) : Quaternion :=
  let halfAngle := angle / 2 in
  let s := sin halfAngle in
  quat (v_x axis * s) (v_y axis * s) (v_z axis * s) (cos halfAngle).
Definition multiply (a b : Quaternion) : Quaternion :=
  quat (q_x a * q_w b + q_w a * q_x b + q_y a * q_z b - q_z a * q_y b)
       (q_y a * q_w b + q_w a * q_y b + q_z a * q_x b - q_x a * q_z b)
       (q_z a * q_w b + q_w a * q_z b + q_x a * q_y b - q_y a * q_x b)
       (q_w a * q_w b - q_x a * q_x b - q_y a * q_y b - q_z a * q_z b).
Definition lengthSq (q : Quaternion) : R :=
  q_x q * q_x q + q_y q * q_y q + q_z q * q_z q + q_w q * q_w q.
Definition length (q : Quaternion) : R := sqrt (lengthSq q).
Definition normalize (q : Quaternion) : Quaternion :=
  let l := length q in
  if decide (l = 0) then identity
  else let l := 1 / l in
       quat (q_x q * l) (q_y q * l) (q_z q * l) (q_w q * l).
End Quat.

End THREE.

Import THREE.

(** ** Scenery constants *)

Definition TERRAIN_SIZE : R := 2500.
Definition TERRAIN_NOISE_SCALE : R := 0.008.
Definition TERRAIN_NOISE_HEIGHT : R := 60.
Definition VOLCANO_RADIUS : R := 600.
Definition VOLCANO_HEIGHT : R := 450.
Definition VOLCANO_SLOPE_FACTOR : R := 1.8.
Definition CRATER_RADIUS : R := 250.
Definition CRATER_DEPTH : R := 80.
Definition CRATER_RIM_WIDTH_FACTOR : R := 0.2.
Definition WATER_LEVEL : R := 5.0.
Definition AIRCRAFT_GROUND_BUFFER : R := 1.5.
Definition WORLD_BOUNDARY : R := TERRAIN_SIZE / 2 * 0.95.
Definition CRASH_VELOCITY_THRESHOLD : R := -15.0.
Definition CRASH_RESET_DELAY : R := 500.
Definition OFF_SCREEN_POS : Vector3 := vec3 1e10 1e10 1e10.

Definition MAX_TRAIL_PARTICLES : nat := 500.
Definition MAX_SMOKE_PARTICLES : nat := 2000.
Definition MAX_ENGINE_PARTICLES : nat := 400.
Definition MAX_EXPLOSION_PARTICLES : nat := 2500.
Definition TRAIL_EMIT_LOG_INTERVAL : R := 1.0.

(** ** Height field *)

(** The rolling noise that [getProceduralTerrainHeight] accumulates in
    [baseHeight] (its two assignments). *)
Definition baseHeight (worldX worldZ : R) : R :=
  sin (worldX * TERRAIN_NOISE_SCALE) * cos (worldZ * TERRAIN_NOISE_SCALE)
    * TERRAIN_NOISE_HEIGHT
  + (sin (worldX * TERRAIN_NOISE_SCALE * 5) + cos (worldZ * TERRAIN_NOISE_SCALE * 7))
    * (TERRAIN_NOISE_HEIGHT * 0.2).

Definition craterFloorRadius : R := CRATER_RADIUS * (1.0 - CRATER_RIM_WIDTH_FACTOR).
Definition craterFloorRadiusSq : R := craterFloorRadius * craterFloorRadius.
Definition craterOuterRadiusSq : R := CRATER_RADIUS * CRATER_RADIUS.
Definition rimTargetHeight : R := VOLCANO_HEIGHT.
Definition craterFloorTarget : R := rimTargetHeight - CRATER_DEPTH.

(** The value the function assigns to [volcanoHeightModifier]. *)
Definition volcanoHeightModifier (worldX worldZ : R) : R :=
  let distSqFromCenter := worldX * worldX + worldZ * worldZ in
  let volcanoShape :=
    exp (- distSqFromCenter / (VOLCANO_RADIUS * VOLCANO_RADIUS * VOLCANO_SLOPE_FACTOR)) in
  let coneHeight := volcanoShape * VOLCANO_HEIGHT in
  if decide (distSqFromCenter < craterFloorRadiusSq) then craterFloorTarget
  else if decide (distSqFromCenter >= craterFloorRadiusSq
                  /\ distSqFromCenter < craterOuterRadiusSq) then
    let distFromCenter := sqrt distSqFromCenter in
    let t := (distFromCenter - craterFloorRadius) / (CRATER_RADIUS - craterFloorRadius) in
    let smooth_t := MathUtils.smoothstep t 0 1 in
    MathUtils.lerp craterFloorTarget rimTargetHeight smooth_t
  else coneHeight.

Definition getProceduralTerrainHeight (worldX worldZ : R) : R :=
  if negb THREE.defined then 0
  else
    let finalHeight := baseHeight worldX worldZ + volcanoHeightModifier worldX worldZ in
    let maxHeight := VOLCANO_HEIGHT + TERRAIN_NOISE_HEIGHT * 1.5 in
    let minHeight := - TERRAIN_NOISE_HEIGHT * 2 in
    MathUtils.clamp finalHeight minHeight maxHeight.

(** ** Data model *)

(** [controlParams]: the tuning values the simulation loop reads.  Colours,
    point sizes and opacities only feed shader uniforms and are left out. *)
Record ControlParams := {
  thrustAcceleration : R; afterburnerMultiplier : R; maxSpeed : R;
  linearDragFactor : R; brakeForce : R; minSpeed : R;
  pitchRate : R; rollRate : R; yawRate : R;
  angularAdjustFactor : R; angularDamping : R; cameraSmoothness : R;
  trailEmissionRate : R; trailParticleLifetime : R;
  trailTriggerSpeed : R; trailTriggerAngularVel : R;
  smokeEmissionRate : R; smokeLifetime : R; smokeBaseVelocityY : R;
  smokeVelocitySpread : R; smokeTurbulence : R; smokeEmissionRadius : R;
  engineEmissionRate : R; engineLifetime : R; engineBaseVelocity : R;
  engineVelocitySpread : R;
  edgeFogStartDistance : R; edgeFogFullDistance : R;
  baseFogNear : R; baseFogFar : R; edgeFogNearFactor : R; edgeFogFarFactor : R;
  explosionParticleCount : R; explosionLifetime : R;
  explosionBaseVelocity : R; explosionVelocitySpread : R
}.

(** The object literal assigned to [controlParams]. *)
Definition defaultControlParams : ControlParams := {|
  thrustAcceleration := 50.0; afterburnerMultiplier := 2.5; maxSpeed := 80.0;
  linearDragFactor := 0.5; brakeForce := 60.0; minSpeed := 0.5;
  pitchRate := PI * 0.9; rollRate := PI * 1.2; yawRate := PI * 0.6;
  angularAdjustFactor := 6.0; angularDamping := 0.94; cameraSmoothness := 0.12;
  trailEmissionRate := 225; trailParticleLifetime := 1.5;
  trailTriggerSpeed := 118; trailTriggerAngularVel := 1.0;
  smokeEmissionRate := 240; smokeLifetime := 15.0; smokeBaseVelocityY := 44.0;
  smokeVelocitySpread := 35.0; smokeTurbulence := 0.25; smokeEmissionRadius := 195.0;
  engineEmissionRate := 1500; engineLifetime := 0.17; engineBaseVelocity := -32.0;
  engineVelocitySpread := 7.5;
  edgeFogStartDistance := WORLD_BOUNDARY * 0.8; edgeFogFullDistance := WORLD_BOUNDARY;
  baseFogNear := 500; baseFogFar := 3500; edgeFogNearFactor := 0.2; edgeFogFarFactor := 0.5;
  explosionParticleCount := 2400; explosionLifetime := 0.8;
  explosionBaseVelocity := 80.0; explosionVelocitySpread := 40.0
|}.

(** [aircraftModel]: the fields of the [THREE.Group] the loop touches. *)
Record Object3D := {
  position : Vector3;
  quaternion : Quaternion;
  visible : bool
}.

(** A [THREE.Points] particle system: the geometry attributes, one entry per
    slot, and the two uniforms the update loops read or write.  The trail
    geometry has no [velocity] attribute; its list is empty. *)
Record Points := {
  positions : list Vector3;
  velocities : list Vector3;
  startTimes : list R;
  alphas : list R;
  sizes : list R;
  uTime : R;
  uLifetime : R
}.

(** [touchControls] *)
Record TouchControls := {
  t_pitch : R; t_roll : R; t_thrust : R; t_yaw : R;
  t_brake : bool; t_afterburner : bool
}.

(** The host: clock, random source, timers and console. *)
Record Host := {
  elapsedTime : R;
  rng : nat -> R;
  rngUsed : nat;
  timers : gset positive;
  nextTimerId : positive;
  console : list string
}.

(** Assets and helpers that are fixed once loading has finished.  A helper
    [Object3D] is represented by its local position, [None] when undefined. *)
Record Assets := {
  isTouchDevice : bool;
  joysticksCreated : bool;
  particleTexture : bool;
  terrainMesh : bool;
  leftWingTip : option Vector3;
  rightWingTip : option Vector3;
  engineNozzleLeft : option Vector3;
  engineNozzleRight : option Vector3;
  INITIAL_AIRCRAFT_POS : Vector3;
  INITIAL_AIRCRAFT_QUAT : Quaternion;
  VOLCANO_CRATER_CENTER_Y : Vector3
}.

Record Flight := {
  aircraftModel : option Object3D;
  playerVelocity : Vector3;
  playerAngularVelocity : Vector3;
  isCrashing : bool;
  crashResetTimeout : option positive
}.

Record Particles := {
  leftWingTrail : option Points;
  rightWingTrail : option Points;
  currentTrailIndex_left : nat;
  currentTrailIndex_right : nat;
  trailEmitLogTimer : R;
  volcanoSmokeSystem : option Points;
  currentSmokeIndex : nat;
  engineBurnSystem : option Points;
  currentEngineIndex : nat;
  crashExplosionSystem : option Points;
  currentExplosionIndex : nat
}.

(** What the frame leaves for the renderer and the HUD: camera position and
    the target of its last [lookAt] ([None] before the first call), fog
    range, and the two numbers written to the HUD. *)
Record View := {
  camera_position : Vector3;
  camera_lookAt : option Vector3;
  fog_near : R;
  fog_far : R;
  hud_speed : R;
  hud_altitude : R
}.

Record World := {
  host : Host;
  assets : Assets;
  keys : gmap string bool;
  touchControls : TouchControls;
  controlParams : ControlParams;
  flight : Flight;
  particles : Particles;
  view : View
}.

(** *** Field updates *)

Definition set_host (h : Host) (w : World) : World :=
  {| host := h; assets := assets w; keys := keys w; touchControls := touchControls w;
     controlParams := controlParams w; flight := flight w; particles := particles w;
     view := view w |}.
Definition set_keys (k : gmap string bool) (w : World) : World :=
  {| host := host w; assets := assets w; keys := k; touchControls := touchControls w;
     controlParams := controlParams w; flight := flight w; particles := particles w;
     view := view w |}.
Definition set_touchControls (t : TouchControls) (w : World) : World :=
  {| host := host w; assets := assets w; keys := keys w; touchControls := t;
     controlParams := controlParams w; flight := flight w; particles := particles w;
     view := view w |}.
Definition set_flight (f : Flight) (w : World) : World :=
  {| host := host w; assets := assets w; keys := keys w; touchControls := touchControls w;
     controlParams := controlParams w; flight := f; particles := particles w;
     view := view w |}.
Definition set_particles (p : Particles) (w : World) : World :=
  {| host := host w; assets := assets w; keys := keys w; touchControls := touchControls w;
     controlParams := controlParams w; flight := flight w; particles := p;
     view := view w |}.
Definition set_view (v : View) (w : World) : World :=
  {| host := host w; assets := assets w; keys := keys w; touchControls := touchControls w;
     controlParams := controlParams w; flight := flight w; particles := particles w;
     view := v |}.

Definition set_elapsedTime (t : R) (h : Host) : Host :=
  {| elapsedTime := t; rng := rng h; rngUsed := rngUsed h; timers := timers h;
     nextTimerId := nextTimerId h; console := console h |}.
Definition set_rngUsed (n : nat) (h : Host) : Host :=
  {| elapsedTime := elapsedTime h; rng := rng h; rngUsed := n; timers := timers h;
     nextTimerId := nextTimerId h; console := console h |}.
Definition set_timers (t : gset positive) (n : positive) (h : Host) : Host :=
  {| elapsedTime := elapsedTime h; rng := rng h; rngUsed := rngUsed h; timers := t;
     nextTimerId := n; console := console h |}.
Definition set_console (c : list string) (h : Host) : Host :=
  {| elapsedTime := elapsedTime h; rng := rng h; rngUsed := rngUsed h; timers := timers h;
     nextTimerId := nextTimerId h; console := c |}.

(** ** Host services *)

(** [clock.getDelta()]: [diff] is the wall-clock time since the previous
    query; it is added to [elapsedTime] and returned. *)
Definition Clock_getDelta (diff : R) (h : Host) : R * Host :=
  (diff, set_elapsedTime (elapsedTime h + diff) h).

(** [clock.getElapsedTime()] calls [getDelta] and returns [elapsedTime]. *)
Definition Clock_getElapsedTime (diff : R) (h : Host) : R * Host :=
  let h' := snd (Clock_getDelta diff h) in (elapsedTime h', h').

(** [Math.random()] *)
Definition Math_random (h : Host) : R * Host :=
  (rng h (rngUsed h), set_rngUsed (S (rngUsed h)) h).

Definition console_log (msg : string) (h : Host) : Host :=
  set_console (console h ++ [msg]) h.

(** [setTimeout(resetSimulation, CRASH_RESET_DELAY)]: a fresh identifier joins
    the pending timers. *)
Definition setTimeout (h : Host) : positive * Host :=
  (nextTimerId h, set_timers ({[ nextTimerId h ]} ∪ timers h) (Pos.succ (nextTimerId h)) h).

Definition clearTimeout (id : positive) (h : Host) : Host :=
  set_timers (timers h ∖ {[ id ]}) (nextTimerId h) h.

(** ** Particle ring buffers *)

(** [for (let i = 0; i < n; i++) body]: the body run for [i = 0 .. n-1]. *)
Definition for_loop {S : Type} (n : nat) (body : nat -> S -> S) (s : S) : S :=
  fold_left (fun s i => body i s) (seq 0 n) s.

#[global] Arguments for_loop : simpl never.

(** How many integers [i >= 0] satisfy [i < bound]. *)
Definition loopCount (bound : R) : nat := Z.to_nat (Math_ceil bound).

Definition setPosition (i : nat) (p : Vector3) (ps : Points) : Points :=
  {| positions := <[i := p]> (positions ps); velocities := velocities ps;
     startTimes := startTimes ps; alphas := alphas ps; sizes := sizes ps;
     uTime := uTime ps; uLifetime := uLifetime ps |}.
Definition setVelocity (i : nat) (v : Vector3) (ps : Points) : Points :=
  {| positions := positions ps; velocities := <[i := v]> (velocities ps);
     startTimes := startTimes ps; alphas := alphas ps; sizes := sizes ps;
     uTime := uTime ps; uLifetime := uLifetime ps |}.
Definition setStartTime (i : nat) (t : R) (ps : Points) : Points :=
  {| positions := positions ps; velocities := velocities ps;
     startTimes := <[i := t]> (startTimes ps); alphas := alphas ps; sizes := sizes ps;
     uTime := uTime ps; uLifetime := uLifetime ps |}.
Definition setAlpha (i : nat) (a : R) (ps : Points) : Points :=
  {| positions := positions ps; velocities := velocities ps;
     startTimes := startTimes ps; alphas := <[i := a]> (alphas ps); sizes := sizes ps;
     uTime := uTime ps; uLifetime := uLifetime ps |}.
Definition setSize (i : nat) (s : R) (ps : Points) : Points :=
  {| positions := positions ps; velocities := velocities ps;
     startTimes := startTimes ps; alphas := alphas ps; sizes := <[i := s]> (sizes ps);
     uTime := uTime ps; uLifetime := uLifetime ps |}.
Definition set_uTime (t : R) (ps : Points) : Points :=
  {| positions := positions ps; velocities := velocities ps;
     startTimes := startTimes ps; alphas := alphas ps; sizes := sizes ps;
     uTime := t; uLifetime := uLifetime ps |}.

(** The buffers every [create...System] function allocates: all slots
    off-screen, unset ([startTime = -1]) and transparent. *)
Definition createPoints (n : nat) (withVelocity : bool) (lifetime : R) : Points :=
  {| positions := replicate n OFF_SCREEN_POS;
     velocities := if withVelocity then replicate n V3.zero else [];
     startTimes := replicate n (-1.0);
     alphas := replicate n 0.0;
     sizes := replicate n 1.0;
     uTime := 0.0;
     uLifetime := lifetime |}.

Definition createTrail (cp : ControlParams) : Points :=
  createPoints MAX_TRAIL_PARTICLES false (trailParticleLifetime cp).
Definition createVolcanoSmokeSystem (cp : ControlParams) : Points :=
  createPoints MAX_SMOKE_PARTICLES true (smokeLifetime cp).
Definition createEngineBurnSystem (cp : ControlParams) : Points :=
  createPoints MAX_ENGINE_PARTICLES true (engineLifetime cp).
Definition createCrashExplosionSystem (cp : ControlParams) : Points :=
  createPoints MAX_EXPLOSION_PARTICLES true (explosionLifetime cp).

(** The retirement branch, the same three writes in all four update loops. *)
Definition retireSlot (i : nat) (ps : Points) : Points :=
  setAlpha i 0.0 (setStartTime i (-1.0) (setPosition i OFF_SCREEN_POS ps)).

(** One iteration of the ageing loop of [updateTrails]
    ([updateExistingParticles]), [updateEngineBurn] and
    [updateCrashExplosion]: the three bodies compute the same alpha. *)
Definition fadeSlot (currentTime lifetime : R) (i : nat) (ps : Points) : Points :=
  match startTimes ps !! i with
  | Some startTime =>
      if decide (startTime >= 0) then
        let age := currentTime - startTime in
        if decide (age > lifetime) then retireSlot i ps
        else
          let lifeRatio := age / lifetime in
          setAlpha i (Rmax 0.0 (1.0 - lifeRatio)) ps
      else ps
  | None => ps
  end.

(** One iteration of the ageing loop of [updateVolcanoSmoke], with the
    turbulence jitter added to the stored velocity. *)
Definition smokeSlot (currentTime lifetime turbulence deltaTime : R) (i : nat)
    (st : Points * Host) : Points * Host :=
  let '(ps, h) := st in
  match startTimes ps !! i with
  | Some startTime =>
      if decide (startTime >= 0) then
        let age := currentTime - startTime in
        if decide (age > lifetime) then (retireSlot i ps, h)
        else
          let lifeRatio := age / lifetime in
          let ps := setAlpha i (Rmax 0.0 (1.0 - lifeRatio * lifeRatio)) ps in
          if decide (turbulence > 0) then
            let '(r1, h) := Math_random h in
            let '(r2, h) := Math_random h in
            let '(r3, h) := Math_random h in
            let tempVector3 :=
              vec3 ((r1 - 0.5) * turbulence * deltaTime * 50)
                   ((r2 - 0.5) * turbulence * deltaTime * 20)
                   ((r3 - 0.5) * turbulence * deltaTime * 50) in
            let v := default V3.zero (velocities ps !! i) in
            (setVelocity i (V3.add v tempVector3) ps, h)
          else (ps, h)
      else (ps, h)
  | None => (ps, h)
  end.

(** The ageing loop over all [n] slots of a trail, engine or explosion
    system. *)
Definition ageing (n : nat) (currentTime lifetime : R) (sys : Points) : Points :=
  for_loop n (fadeSlot currentTime lifetime) sys.

(** The ageing loop of the smoke system. *)
Definition smokeAgeing (n : nat) (currentTime lifetime turbulence deltaTime : R)
    (st : Points * Host) : Points * Host :=
  for_loop n (smokeSlot currentTime lifetime turbulence deltaTime) st.

(** *** Crash explosion *)

Definition updateCrashExplosion (diff : R) (w : World) : World :=
  match crashExplosionSystem (particles w) with
  | Some sys =>
      if particleTexture (assets w) then
        let '(currentTime, h) := Clock_getElapsedTime diff (host w) in
        let sys := set_uTime currentTime sys in
        let lifetime := uLifetime sys in
        let sys := ageing MAX_EXPLOSION_PARTICLES currentTime lifetime sys in
        let p := particles w in
        set_host h (set_particles
          {| leftWingTrail := leftWingTrail p; rightWingTrail := rightWingTrail p;
             currentTrailIndex_left := currentTrailIndex_left p;
             currentTrailIndex_right := currentTrailIndex_right p;
             trailEmitLogTimer := trailEmitLogTimer p;
             volcanoSmokeSystem := volcanoSmokeSystem p;
             currentSmokeIndex := currentSmokeIndex p;
             engineBurnSystem := engineBurnSystem p;
             currentEngineIndex := currentEngineIndex p;
             crashExplosionSystem := Some sys;
             currentExplosionIndex := currentExplosionIndex p |} w)
      else w
  | None => w
  end.

(** One iteration of the emission loop of [triggerCrashExplosion]; the state
    is the system, [currentExplosionIndex] and the host (random draws). *)
Definition explosionEmit (cp : ControlParams) (position : Vector3) (currentTime : R)
    (st : Points * nat * Host) : Points * nat * Host :=
  let '(sys, currentIndex, h) := st in
  let index := currentIndex in
  let sys := setPosition index position sys in
  let '(r1, h) := Math_random h in
  let '(r2, h) := Math_random h in
  let '(r3, h) := Math_random h in
  let direction := V3.normalize (vec3 (r1 - 0.5) (r2 - 0.5) (r3 - 0.5)) in
  let '(r4, h) := Math_random h in
  let explosionParticleVelocity :=
    V3.multiplyScalar direction
      (explosionBaseVelocity cp + (r4 - 0.5) * explosionVelocitySpread cp) in
  let sys := setVelocity index explosionParticleVelocity sys in
  let sys := setStartTime index currentTime sys in
  let sys := setAlpha index 1.0 sys in
  let '(r5, h) := Math_random h in
  let sys := setSize index (0.8 + r5 * 0.4) sys in
  (sys, ((index + 1) mod MAX_EXPLOSION_PARTICLES)%nat, h).

Definition triggerCrashExplosion (diff : R) (position : Vector3) (w : World) : World :=
  match crashExplosionSystem (particles w) with
  | Some sys =>
      if particleTexture (assets w) then
        let h := console_log "--- Triggering Crash Explosion ---" (host w) in
        let '(currentTime, h) := Clock_getElapsedTime diff h in
        let count :=
          Rmin (explosionParticleCount (controlParams w)) (INR MAX_EXPLOSION_PARTICLES) in
        let '(sys, index, h) :=
          for_loop (loopCount count)
            (fun _ => explosionEmit (controlParams w) position currentTime)
            (sys, currentExplosionIndex (particles w), h) in
        let p := particles w in
        set_host h (set_particles
          {| leftWingTrail := leftWingTrail p; rightWingTrail := rightWingTrail p;
             currentTrailIndex_left := currentTrailIndex_left p;
             currentTrailIndex_right := currentTrailIndex_right p;
             trailEmitLogTimer := trailEmitLogTimer p;
             volcanoSmokeSystem := volcanoSmokeSystem p;
             currentSmokeIndex := currentSmokeIndex p;
             engineBurnSystem := engineBurnSystem p;
             currentEngineIndex := currentEngineIndex p;
             crashExplosionSystem := Some sys;
             currentExplosionIndex := index |} w)
      else w
  | None => w
  end.

(** *** Wingtip trails *)

Definition MODEL_SCALE : R := 1.0.
Definition INITIAL_Y_ROTATION : R := PI.

(** [helper.getWorldPosition(...)] for a helper attached to the mesh group,
    which is scaled by [MODEL_SCALE], turned by [INITIAL_Y_ROTATION] about
    the vertical axis and carried by [aircraftModel]. *)
Definition getWorldPosition (a : Object3D) (helper : Vector3) : Vector3 :=
  let s := V3.multiplyScalar helper MODEL_SCALE in
  let turned :=
    vec3 (v_x s * cos INITIAL_Y_ROTATION + v_z s * sin INITIAL_Y_ROTATION)
         (v_y s)
         (- v_x s * sin INITIAL_Y_ROTATION + v_z s * cos INITIAL_Y_ROTATION) in
  V3.add (position a) (V3.applyQuaternion turned (quaternion a)).

(** One iteration of the emission loop of [emitParticle]. *)
Definition trailEmit (wingTipWorldPosition : Vector3) (currentTime : R)
    (st : Points * nat) : Points * nat :=
  let '(sys, currentIndex) := st in
  let index := currentIndex in
  let sys := setPosition index wingTipWorldPosition sys in
  let sys := setStartTime index currentTime sys in
  let sys := setAlpha index 1.0 sys in
  (sys, ((index + 1) mod MAX_TRAIL_PARTICLES)%nat).

(** The closure [emitParticle(trailSystem, wingTipObject, side)]. *)
Definition emitParticle (a : Object3D) (particlesToEmit : Z) (currentTime : R)
    (wingTip : Vector3) (st : Points * nat) : Points * nat :=
  if decide (particlesToEmit <= 0)%Z then st
  else
    let wingTipWorldPosition := getWorldPosition a wingTip in
    for_loop (Nat.min (Z.to_nat particlesToEmit) MAX_TRAIL_PARTICLES)
      (fun _ => trailEmit wingTipWorldPosition currentTime) st.

(** The closure [updateExistingParticles(trailSystem)]. *)
Definition updateExistingParticles (currentTime : R) (sys : Points) : Points :=
  ageing MAX_TRAIL_PARTICLES currentTime (uLifetime sys) sys.

Definition updateTrails (diff deltaTime : R) (w : World) : World :=
  let p := particles w in
  match aircraftModel (flight w), leftWingTrail p, rightWingTrail p,
        leftWingTip (assets w), rightWingTip (assets w) with
  | Some a, Some leftTrail, Some rightTrail, Some leftTip, Some rightTip =>
      if particleTexture (assets w) then
        let '(currentTime, h) := Clock_getElapsedTime diff (host w) in
        let leftTrail := set_uTime currentTime leftTrail in
        let rightTrail := set_uTime currentTime rightTrail in
        let speed := V3.length (playerVelocity (flight w)) in
        let angularSpeed := V3.length (playerAngularVelocity (flight w)) in
        let cp := controlParams w in
        let shouldEmit :=
          bool_decide (speed > trailTriggerSpeed cp)
          || (bool_decide (speed > trailTriggerSpeed cp * 0.5)
              && bool_decide (angularSpeed > trailTriggerAngularVel cp)) in
        let particlesToEmit :=
          if shouldEmit then Math_ceil (trailEmissionRate cp * deltaTime) else 0%Z in
        let logTimer := trailEmitLogTimer p + deltaTime in
        let logTimer := if decide (logTimer > TRAIL_EMIT_LOG_INTERVAL) then 0 else logTimer in
        let '(leftTrail, leftIndex) :=
          emitParticle a particlesToEmit currentTime leftTip
            (leftTrail, currentTrailIndex_left p) in
        let '(rightTrail, rightIndex) :=
          emitParticle a particlesToEmit currentTime rightTip
            (rightTrail, currentTrailIndex_right p) in
        let leftTrail := updateExistingParticles currentTime leftTrail in
        let rightTrail := updateExistingParticles currentTime rightTrail in
        set_host h (set_particles
          {| leftWingTrail := Some leftTrail; rightWingTrail := Some rightTrail;
             currentTrailIndex_left := leftIndex;
             currentTrailIndex_right := rightIndex;
             trailEmitLogTimer := logTimer;
             volcanoSmokeSystem := volcanoSmokeSystem p;
             currentSmokeIndex := currentSmokeIndex p;
             engineBurnSystem := engineBurnSystem p;
             currentEngineIndex := currentEngineIndex p;
             crashExplosionSystem := crashExplosionSystem p;
             currentExplosionIndex := currentExplosionIndex p |} w)
      else w
  | _, _, _, _, _ => w
  end.

(** *** Volcano smoke *)

(** One iteration of the emission loop of [updateVolcanoSmoke]. *)
Definition smokeEmit (cp : ControlParams) (craterCenterY currentTime : R)
    (st : Points * nat * Host) : Points * nat * Host :=
  let '(sys, currentIndex, h) := st in
  let index := currentIndex in
  let '(r1, h) := Math_random h in
  let radius := smokeEmissionRadius cp * sqrt r1 in
  let '(r2, h) := Math_random h in
  let angle := r2 * PI * 2 in
  let smokeParticlePosition :=
    vec3 (radius * cos angle) (craterCenterY + 1.0) (radius * sin angle) in
  let sys := setPosition index smokeParticlePosition sys in
  let '(r3, h) := Math_random h in
  let '(r4, h) := Math_random h in
  let '(r5, h) := Math_random h in
  let smokeParticleVelocity :=
    vec3 ((r3 - 0.5) * smokeVelocitySpread cp)
         (smokeBaseVelocityY cp * (0.8 + r4 * 0.4))
         ((r5 - 0.5) * smokeVelocitySpread cp) in
  let sys := setVelocity index smokeParticleVelocity sys in
  let sys := setStartTime index currentTime sys in
  let sys := setAlpha index 1.0 sys in
  let '(r6, h) := Math_random h in
  let sys := setSize index (0.8 + r6 * 0.4) sys in
  (sys, ((index + 1) mod MAX_SMOKE_PARTICLES)%nat, h).

Definition updateVolcanoSmoke (diff deltaTime : R) (w : World) : World :=
  match volcanoSmokeSystem (particles w) with
  | Some sys =>
      if particleTexture (assets w) then
        let '(currentTime, h) := Clock_getElapsedTime diff (host w) in
        let sys := set_uTime currentTime sys in
        let cp := controlParams w in
        let particlesToEmit := Math_ceil (smokeEmissionRate cp * deltaTime) in
        let '(sys, index, h) :=
          for_loop (Nat.min (Z.to_nat particlesToEmit) MAX_SMOKE_PARTICLES)
            (fun _ => smokeEmit cp (v_y (VOLCANO_CRATER_CENTER_Y (assets w))) currentTime)
            (sys, currentSmokeIndex (particles w), h) in
        let lifetime := uLifetime sys in
        let turbulence := smokeTurbulence cp in
        let '(sys, h) :=
          smokeAgeing MAX_SMOKE_PARTICLES currentTime lifetime turbulence deltaTime
            (sys, h) in
        let p := particles w in
        set_host h (set_particles
          {| leftWingTrail := leftWingTrail p; rightWingTrail := rightWingTrail p;
             currentTrailIndex_left := currentTrailIndex_left p;
             currentTrailIndex_right := currentTrailIndex_right p;
             trailEmitLogTimer := trailEmitLogTimer p;
             volcanoSmokeSystem := Some sys;
             currentSmokeIndex := index;
             engineBurnSystem := engineBurnSystem p;
             currentEngineIndex := currentEngineIndex p;
             crashExplosionSystem := crashExplosionSystem p;
             currentExplosionIndex := currentExplosionIndex p |} w)
      else w
  | None => w
  end.

(** *** Engine burn *)

(** [keys[k]] as a condition: an absent key is [undefined], hence falsy. *)
Definition keyDown (ks : gmap string bool) (k : string) : bool :=
  default false (ks !! k).

(** One iteration of the emission loop of [updateEngineBurn]. *)
Definition engineEmit (cp : ControlParams) (nozzleLeft nozzleRight : Vector3)
    (currentTime : R) (i : nat) (st : Points * nat * Host) : Points * nat * Host :=
  let '(sys, currentIndex, h) := st in
  let index := currentIndex in
  let emissionPosition := if decide (i mod 2 = 0)%nat then nozzleLeft else nozzleRight in
  let sys := setPosition index emissionPosition sys in
  let '(r1, h) := Math_random h in
  let speedFactor := 1.0 + (r1 - 0.5) * 0.2 in
  let '(r2, h) := Math_random h in
  let '(r3, h) := Math_random h in
  let engineParticleVelocity :=
    vec3 ((r2 - 0.5) * engineVelocitySpread cp)
         ((r3 - 0.5) * engineVelocitySpread cp)
         (engineBaseVelocity cp * speedFactor) in
  let sys := setVelocity index engineParticleVelocity sys in
  let sys := setStartTime index currentTime sys in
  let sys := setAlpha index 1.0 sys in
  let '(r4, h) := Math_random h in
  let sys := setSize index (0.8 + r4 * 0.4) sys in
  (sys, ((index + 1) mod MAX_ENGINE_PARTICLES)%nat, h).

(** [updateEngineBurn] after its guard and clock query; [thrustActive] is
    what distinguishes the two revisions. *)
Definition engineBurnBody (thrustActive : bool) (currentTime deltaTime : R)
    (nozzleLeft nozzleRight : Vector3) (sys : Points) (h : Host) (w : World) : World :=
  let sys := set_uTime currentTime sys in
  let cp := controlParams w in
  let particlesToEmit :=
    if thrustActive then Math_ceil (engineEmissionRate cp * deltaTime) else 0%Z in
  let '(sys, index, h) :=
    if decide (particlesToEmit > 0)%Z then
      for_loop (Nat.min (Z.to_nat particlesToEmit) MAX_ENGINE_PARTICLES)
        (engineEmit cp nozzleLeft nozzleRight currentTime)
        (sys, currentEngineIndex (particles w), h)
    else (sys, currentEngineIndex (particles w), h) in
  let lifetime := uLifetime sys in
  let sys := ageing MAX_ENGINE_PARTICLES currentTime lifetime sys in
  let p := particles w in
  set_host h (set_particles
    {| leftWingTrail := leftWingTrail p; rightWingTrail := rightWingTrail p;
       currentTrailIndex_left := currentTrailIndex_left p;
       currentTrailIndex_right := currentTrailIndex_right p;
       trailEmitLogTimer := trailEmitLogTimer p;
       volcanoSmokeSystem := volcanoSmokeSystem p;
       currentSmokeIndex := currentSmokeIndex p;
       engineBurnSystem := Some sys;
       currentEngineIndex := index;
       crashExplosionSystem := crashExplosionSystem p;
       currentExplosionIndex := currentExplosionIndex p |} w).

Definition updateEngineBurn (diff deltaTime : R) (w : World) : World :=
  match engineBurnSystem (particles w), engineNozzleLeft (assets w),
        engineNozzleRight (assets w), aircraftModel (flight w) with
  | Some sys, Some nozzleLeft, Some nozzleRight, Some _ =>
      if particleTexture (assets w) then
        let '(currentTime, h) := Clock_getElapsedTime diff (host w) in
        let currentThrustInput :=
          if isTouchDevice (assets w) then t_thrust (touchControls w)
          else if keyDown (keys w) " " then 1.0 else 0 in
        let thrustActive := bool_decide (currentThrustInput > 0.1) in
        engineBurnBody thrustActive currentTime deltaTime nozzleLeft nozzleRight sys h w
      else w
  | _, _, _, _ => w
  end.

(** [updateEngineBurn] of the keyboard-only revision: [if (keys[' '])]. *)
Definition updateEngineBurn_kbd (diff deltaTime : R) (w : World) : World :=
  match engineBurnSystem (particles w), engineNozzleLeft (assets w),
        engineNozzleRight (assets w), aircraftModel (flight w) with
  | Some sys, Some nozzleLeft, Some nozzleRight, Some _ =>
      if particleTexture (assets w) then
        let '(currentTime, h) := Clock_getElapsedTime diff (host w) in
        engineBurnBody (keyDown (keys w) " ") currentTime deltaTime
          nozzleLeft nozzleRight sys h w
      else w
  | _, _, _, _ => w
  end.

(** ** Control input *)

Record ControlInput := {
  pitchInput : R; rollInput : R; yawInput : R; thrustInput : R;
  brakeInput : bool; afterburnerInput : bool
}.

(** The head of the physics block of [animate]: the six [let ...Input]
    bindings and the touch / keyboard branches that assign them.  [yawInput]
    keeps its initial value on both branches. *)
Definition readControls (w : World) : ControlInput :=
  if isTouchDevice (assets w) then
    {| pitchInput := t_pitch (touchControls w);
       rollInput := t_roll (touchControls w);
       yawInput := 0;
       thrustInput := t_thrust (touchControls w);
       brakeInput := false;
       afterburnerInput := t_afterburner (touchControls w) |}
  else
    {| pitchInput :=
         if keyDown (keys w) "s" then 1.0 else if keyDown (keys w) "w" then -1.0 else 0;
       rollInput :=
         if keyDown (keys w) "d" then -1.0 else if keyDown (keys w) "a" then 1.0 else 0;
       yawInput := 0;
       thrustInput := if keyDown (keys w) " " then 1.0 else 0;
       brakeInput := if keyDown (keys w) "b" then true else false;
       afterburnerInput := if keyDown (keys w) "shift" then true else false |}.

(** The keyboard-only revision reads the keys where it needs them; its
    targets [±rate] and its thrust are the products the later revision
    forms from these inputs. *)
Definition readControls_kbd (w : World) : ControlInput :=
  {| pitchInput :=
       if keyDown (keys w) "s" then 1.0 else if keyDown (keys w) "w" then -1.0 else 0;
     rollInput :=
       if keyDown (keys w) "d" then -1.0 else if keyDown (keys w) "a" then 1.0 else 0;
     yawInput := 0;
     thrustInput := if keyDown (keys w) " " then 1.0 else 0;
     brakeInput := keyDown (keys w) "b";
     afterburnerInput := keyDown (keys w) "shift" |}.

(** ** Flight dynamics, step by step *)

(** [Math.pow] for a positive base, which is what the tuning panel allows
    for [angularDamping] and [1 - cameraSmoothness]. *)
Definition Math_pow (a b : R) : R := Rpower a b.

(** Target rates, first-order approach and damping of the angular velocity. *)
Definition angularUpdate (cp : ControlParams) (inp : ControlInput) (deltaTime : R)
    (angVel : Vector3) : Vector3 :=
  let targetPitch := pitchInput inp * pitchRate cp in
  let targetRoll := rollInput inp * rollRate cp in
  let targetYaw := yawInput inp * yawRate cp in
  let angVel :=
    vec3 (v_x angVel + (targetPitch - v_x angVel) * angularAdjustFactor cp * deltaTime)
         (v_y angVel + (targetYaw - v_y angVel) * angularAdjustFactor cp * deltaTime)
         (v_z angVel + (targetRoll - v_z angVel) * angularAdjustFactor cp * deltaTime) in
  let effectiveAngularDamping := Math_pow (angularDamping cp) (deltaTime * 60) in
  V3.multiplyScalar angVel effectiveAngularDamping.

(** Incremental rotations composed in the order yaw, pitch, roll, then the
    guarded normalisation. *)
Definition orientationUpdate (q : Quaternion) (angVel : Vector3) (deltaTime : R)
    : Quaternion :=
  let deltaRot := V3.multiplyScalar angVel deltaTime in
  let qx := Quat.setFromAxisAngle (vec3 1 0 0) (v_x deltaRot) in
  let qy := Quat.setFromAxisAngle (vec3 0 1 0) (v_y deltaRot) in
  let qz := Quat.setFromAxisAngle (vec3 0 0 1) (v_z deltaRot) in
  let q := Quat.multiply (Quat.multiply (Quat.multiply q qy) qx) qz in
  if decide (Quat.lengthSq q > 1e-6) then Quat.normalize q else q.

(** Thrust, braking and linear drag. *)
Definition applyForces (cp : ControlParams) (inp : ControlInput) (deltaTime : R)
    (q : Quaternion) (velocity : Vector3) : Vector3 :=
  let currentThrustForce :=
    thrustInput inp * thrustAcceleration cp
      * (if afterburnerInput inp then afterburnerMultiplier cp else 1.0) in
  let forwardDirection := V3.normalize (V3.applyQuaternion (vec3 0 0 (-1)) q) in
  let accelerationVector :=
    V3.multiplyScalar forwardDirection (currentThrustForce * deltaTime) in
  let brakingVector :=
    if brakeInput inp && bool_decide (V3.lengthSq velocity > 0.01) then
      if decide (V3.lengthSq velocity > 1e-6) then
        V3.multiplyScalar (V3.normalize velocity) (- brakeForce cp * deltaTime)
      else V3.zero
    else V3.zero in
  let velocity := V3.add velocity accelerationVector in
  let velocity := V3.add velocity brakingVector in
  let dragForce := V3.multiplyScalar velocity (- linearDragFactor cp * deltaTime) in
  V3.add velocity dragForce.

(** The speed cap. *)
Definition speedCap (cp : ControlParams) (inp : ControlInput) (velocity : Vector3)
    : Vector3 :=
  let currentMaxSpeed :=
    maxSpeed cp * (if afterburnerInput inp then afterburnerMultiplier cp else 1.0) in
  if decide (V3.lengthSq velocity > currentMaxSpeed * currentMaxSpeed) then
    if decide (V3.lengthSq velocity > 1e-6) then
      V3.multiplyScalar (V3.normalize velocity) currentMaxSpeed
    else velocity
  else velocity.

(** The idle decay of the revision with touch controls. *)
Definition idleDecay (cp : ControlParams) (inp : ControlInput) (velocity : Vector3)
    : Vector3 :=
  if bool_decide (thrustInput inp < 0.1) && negb (brakeInput inp) then
    if bool_decide (V3.lengthSq velocity < minSpeed cp * minSpeed cp)
       && bool_decide (V3.lengthSq velocity > 0.01) then
      let velocity := V3.multiplyScalar velocity 0.9 in
      if decide (V3.lengthSq velocity < 0.01) then V3.zero else velocity
    else velocity
  else velocity.

(** The idle decay of the keyboard-only revision: [!keys[' ']] and no lower
    bound on the speed. *)
Definition idleDecay_kbd (cp : ControlParams) (thrustKey : bool) (velocity : Vector3)
    : Vector3 :=
  if negb thrustKey && bool_decide (V3.lengthSq velocity < minSpeed cp * minSpeed cp) then
    let velocity := V3.multiplyScalar velocity 0.9 in
    if decide (V3.lengthSq velocity < 0.01) then V3.zero else velocity
  else velocity.

(** The world boundary check (wrap around). *)
Definition worldWrap (p : Vector3) : Vector3 :=
  let p :=
    if decide (v_x p > WORLD_BOUNDARY) then V3.set_x p (- WORLD_BOUNDARY + 1)
    else if decide (v_x p < - WORLD_BOUNDARY) then V3.set_x p (WORLD_BOUNDARY - 1)
    else p in
  if decide (v_z p > WORLD_BOUNDARY) then V3.set_z p (- WORLD_BOUNDARY + 1)
  else if decide (v_z p < - WORLD_BOUNDARY) then V3.set_z p (WORLD_BOUNDARY - 1)
  else p.

(** The two revisions of the loop. *)
Inductive Revision := TouchControlsRev | KeyboardOnlyRev.

(** ** Collision, crash and reset *)

Definition set_pose (a : Object3D) (w : World) : World :=
  let f := flight w in
  set_flight {| aircraftModel := Some a; playerVelocity := playerVelocity f;
                playerAngularVelocity := playerAngularVelocity f;
                isCrashing := isCrashing f;
                crashResetTimeout := crashResetTimeout f |} w.

Definition set_velocities (v angVel : Vector3) (w : World) : World :=
  let f := flight w in
  set_flight {| aircraftModel := aircraftModel f; playerVelocity := v;
                playerAngularVelocity := angVel;
                isCrashing := isCrashing f;
                crashResetTimeout := crashResetTimeout f |} w.

Definition set_isCrashing (b : bool) (w : World) : World :=
  let f := flight w in
  set_flight {| aircraftModel := aircraftModel f; playerVelocity := playerVelocity f;
                playerAngularVelocity := playerAngularVelocity f;
                isCrashing := b;
                crashResetTimeout := crashResetTimeout f |} w.

Definition set_crashResetTimeout (t : option positive) (w : World) : World :=
  let f := flight w in
  set_flight {| aircraftModel := aircraftModel f; playerVelocity := playerVelocity f;
                playerAngularVelocity := playerAngularVelocity f;
                isCrashing := isCrashing f;
                crashResetTimeout := t |} w.

(** The body of [if (!isCrashing) { ... }] inside the collision check: the
    crash-entry sequence. *)
Definition enterCrash (d_trigger : R) (a : Object3D) (w : World) : World :=
  let w := set_host (console_log "CRASH DETECTED!" (host w)) w in
  let w := set_isCrashing true w in
  let w := triggerCrashExplosion d_trigger (position a) w in
  let w := set_pose {| position := position a; quaternion := quaternion a;
                       visible := false |} w in
  let w := set_velocities V3.zero V3.zero w in
  let w :=
    match crashResetTimeout (flight w) with
    | Some id => set_host (clearTimeout id (host w)) w
    | None => w
    end in
  let '(id, h) := setTimeout (host w) in
  set_crashResetTimeout (Some id) (set_host h w).

(** The soft ground contact: clamp the height and, when still descending,
    bounce. *)
Definition groundContact (effectiveGroundLevel : R) (a : Object3D) (w : World) : World :=
  let a := {| position := V3.set_y (position a) (effectiveGroundLevel + AIRCRAFT_GROUND_BUFFER);
              quaternion := quaternion a; visible := visible a |} in
  let w := set_pose a w in
  let v := playerVelocity (flight w) in
  if decide (v_y v < 0) then
    set_velocities (vec3 (v_x v * 0.8) (v_y v * -0.2) (v_z v * 0.8))
                   (V3.multiplyScalar (playerAngularVelocity (flight w)) 0.5) w
  else w.

(** Collision detection and crash reset, run on the pose and velocities the
    frame has just computed. *)
Definition collisionCheck (d_trigger : R) (w : World) : World :=
  match aircraftModel (flight w) with
  | Some a =>
      if terrainMesh (assets w) then
        let terrainHeightColl :=
          getProceduralTerrainHeight (v_x (position a)) (v_z (position a)) in
        let effectiveGroundLevel := Rmax terrainHeightColl WATER_LEVEL in
        if decide (v_y (position a) < effectiveGroundLevel + AIRCRAFT_GROUND_BUFFER) then
          if decide (v_y (playerVelocity (flight w)) < CRASH_VELOCITY_THRESHOLD) then
            if negb (isCrashing (flight w)) then enterCrash d_trigger a w else w
          else groundContact effectiveGroundLevel a w
        else w
      else w
  | None => w
  end.

Definition resetSimulation (w : World) : World :=
  let w := set_host (console_log "--- Resetting Aircraft Position & Physics ---" (host w)) w in
  match aircraftModel (flight w) with
  | None => w
  | Some a =>
      let w := set_velocities V3.zero V3.zero w in
      let w := set_pose {| position := INITIAL_AIRCRAFT_POS (assets w);
                           quaternion := INITIAL_AIRCRAFT_QUAT (assets w);
                           visible := true |} w in
      let w := set_isCrashing false w in
      match crashResetTimeout (flight w) with
      | Some id => set_crashResetTimeout None (set_host (clearTimeout id (host w)) w)
      | None => w
      end
  end.

(** ** One frame *)

(** The wall-clock time between consecutive queries of the clock while one
    frame is processed: [animate]'s own [getDelta], then the
    [getElapsedTime] of each update function and of the explosion trigger. *)
Record Frame := {
  d_animate : R; d_trails : R; d_smoke : R; d_engine : R;
  d_explosion : R; d_trigger : R
}.

Definition controlsOf (rev : Revision) (w : World) : ControlInput :=
  match rev with
  | TouchControlsRev => readControls w
  | KeyboardOnlyRev => readControls_kbd w
  end.

(** The physics block up to and including the world boundary check: rotation,
    velocity, position. *)
Definition integrate (rev : Revision) (deltaTime : R) (w : World) : World :=
  match aircraftModel (flight w) with
  | None => w
  | Some a =>
      let cp := controlParams w in
      let inp := controlsOf rev w in
      let angVel := angularUpdate cp inp deltaTime (playerAngularVelocity (flight w)) in
      let q := orientationUpdate (quaternion a) angVel deltaTime in
      let velocity :=
        speedCap cp inp (applyForces cp inp deltaTime q (playerVelocity (flight w))) in
      let velocity :=
        match rev with
        | TouchControlsRev => idleDecay cp inp velocity
        | KeyboardOnlyRev => idleDecay_kbd cp (keyDown (keys w) " ") velocity
        end in
      let pos := worldWrap (V3.addScaledVector (position a) velocity deltaTime) in
      let w := set_velocities velocity angVel w in
      set_pose {| position := pos; quaternion := q; visible := visible a |} w
  end.

(** The physics block: everything inside [if (!isCrashing) { try { ... } }]. *)
Definition physics (rev : Revision) (fr : Frame) (deltaTime : R) (w : World) : World :=
  collisionCheck (d_trigger fr) (integrate rev deltaTime w).

(** HUD figures, edge fog and camera follow: the part of [animate] after the
    physics block, run whenever the aircraft exists.  [scene.fog] is the
    [THREE.Fog] assigned at start-up, so the fog branch always runs.  The
    flicker of the volcano light and the render call leave the simulation
    state alone and are not modelled; nor are the [needsUpdate] flags of the
    particle buffers, which only ask the renderer to upload them. *)
Definition updateView (deltaTime : R) (a : Object3D) (w : World) : World :=
  let cp := controlParams w in
  let currentSpeed := V3.length (playerVelocity (flight w)) in
  let currentAltitude :=
    if terrainMesh (assets w) then
      let terrainHeight :=
        getProceduralTerrainHeight (v_x (position a)) (v_z (position a)) in
      let groundLevel := Rmax terrainHeight WATER_LEVEL in
      Rmax 0 (v_y (position a) - groundLevel)
    else v_y (position a) in
  let distSq := v_x (position a) * v_x (position a) + v_z (position a) * v_z (position a) in
  let dist := sqrt distSq in
  let fogFactor :=
    if decide (dist > edgeFogStartDistance cp) then
      MathUtils.smoothstep dist (edgeFogStartDistance cp) (edgeFogFullDistance cp)
    else 0 in
  let near := MathUtils.lerp (baseFogNear cp) (baseFogNear cp * edgeFogNearFactor cp) fogFactor in
  let far := MathUtils.lerp (baseFogFar cp) (baseFogFar cp * edgeFogFarFactor cp) fogFactor in
  let relativeCameraOffset := vec3 0 7 20 in
  let cameraOffset := V3.applyQuaternion relativeCameraOffset (quaternion a) in
  let targetCameraPosition := V3.add (position a) cameraOffset in
  let lerpFactor := 1.0 - Math_pow (1.0 - cameraSmoothness cp) (deltaTime * 60) in
  set_view {| camera_position := V3.lerp (camera_position (view w)) targetCameraPosition lerpFactor;
              camera_lookAt := Some (position a);
              fog_near := near; fog_far := far;
              hud_speed := currentSpeed; hud_altitude := currentAltitude |} w.

(** The HUD when there is no aircraft: both figures keep their initial 0. *)
Definition updateHudOnly (w : World) : World :=
  let v := view w in
  set_view {| camera_position := camera_position v; camera_lookAt := camera_lookAt v;
              fog_near := fog_near v; fog_far := fog_far v;
              hud_speed := 0; hud_altitude := 0 |} w.

(** The four particle updates that open the frame. *)
Definition updateEffects (rev : Revision) (fr : Frame) (deltaTime : R) (w : World) : World :=
  if particleTexture (assets w) then
    let w := updateTrails (d_trails fr) deltaTime w in
    let w := updateVolcanoSmoke (d_smoke fr) deltaTime w in
    let w :=
      match rev with
      | TouchControlsRev => updateEngineBurn (d_engine fr) deltaTime w
      | KeyboardOnlyRev => updateEngineBurn_kbd (d_engine fr) deltaTime w
      end in
    updateCrashExplosion (d_explosion fr) w
  else w.

(** [animate], for either revision. *)
Definition animate_rev (rev : Revision) (fr : Frame) (w : World) : World :=
  let '(delta, h) := Clock_getDelta (d_animate fr) (host w) in
  let w := set_host h w in
  let deltaTime := Rmin delta 0.1 in
  let w := updateEffects rev fr deltaTime w in
  match aircraftModel (flight w) with
  | Some _ =>
      if THREE.defined then
        let w := if negb (isCrashing (flight w)) then physics rev fr deltaTime w else w in
        match aircraftModel (flight w) with
        | Some a => updateView deltaTime a w
        | None => updateHudOnly w
        end
      else updateHudOnly w
  | None => updateHudOnly w
  end.

(** [animate] of [js/main.js] (touch controls). *)
Definition animate : Frame -> World -> World := animate_rev TouchControlsRev.

(** [animate] of the keyboard-only revision. *)
Definition animate_kbd : Frame -> World -> World := animate_rev KeyboardOnlyRev.

(** ** Input handlers and the event loop *)

(** [joystickOptions.size] *)
Definition joystick_size : R := 120.

(** [joystickLeft.on('move', ...)] *)
Definition joystickLeft_move (distance angle : R) (t : TouchControls) : TouchControls :=
  let maxDistance := joystick_size / 2 in
  let distance := Rmin distance maxDistance in
  let force := distance / maxDistance in
  {| t_pitch := - sin angle * force; t_roll := - cos angle * force;
     t_thrust := t_thrust t; t_yaw := t_yaw t;
     t_brake := t_brake t; t_afterburner := t_afterburner t |}.

(** [joystickLeft.on('end', ...)] *)
Definition joystickLeft_end (t : TouchControls) : TouchControls :=
  {| t_pitch := 0; t_roll := 0; t_thrust := t_thrust t; t_yaw := t_yaw t;
     t_brake := t_brake t; t_afterburner := t_afterburner t |}.

(** [joystickRight.on('move', ...)] *)
Definition joystickRight_move (distance angle : R) (t : TouchControls) : TouchControls :=
  let maxDistance := joystick_size / 2 in
  let distance := Rmin distance maxDistance in
  let force := distance / maxDistance in
  let verticalForce := sin angle * force in
  {| t_pitch := t_pitch t; t_roll := t_roll t;
     t_thrust := Rmax 0 verticalForce; t_yaw := 0;
     t_brake := t_brake t;
     t_afterburner :=
       if bool_decide (verticalForce > 0.9) && bool_decide (force > 0.9)
       then true else false |}.

(** [joystickRight.on('end', ...)] *)
Definition joystickRight_end (t : TouchControls) : TouchControls :=
  {| t_pitch := t_pitch t; t_roll := t_roll t; t_thrust := 0; t_yaw := 0;
     t_brake := t_brake t; t_afterburner := false |}.

(** The initial [touchControls] object. *)
Definition initialTouchControls : TouchControls :=
  {| t_pitch := 0; t_roll := 0; t_thrust := 0; t_yaw := 0;
     t_brake := false; t_afterburner := false |}.

(** The [keydown] / [keyup] listeners; [key] is the lower-cased [event.key]
    and [isShiftCode] tells whether [event.code] is a shift key. *)
Definition onKey (pressed : bool) (key : string) (isShiftCode : bool)
    (ks : gmap string bool) : gmap string bool :=
  let ks := <[key := pressed]> ks in
  if isShiftCode then <["shift" := pressed]> ks else ks.

(** What the host can deliver to the page once the loop is running.  Edits
    of [controlParams] through the tuning panel are not among the events:
    the tuning values of a run are those of its first state. *)
Inductive Event :=
| AnimationFrame (fr : Frame)
| KeyDown (key : string) (isShiftCode : bool)
| KeyUp (key : string) (isShiftCode : bool)
| JoystickLeftMove (distance angle : R)
| JoystickLeftEnd
| JoystickRightMove (distance angle : R)
| JoystickRightEnd
| TimerFired (id : positive).

(** A joystick event reaches its handler only when [setupJoysticks] created
    the joysticks. *)
Definition onJoystick (f : TouchControls -> TouchControls) (w : World) : World :=
  if joysticksCreated (assets w) then set_touchControls (f (touchControls w)) w else w.

(** One turn of the event loop. *)
Definition step (rev : Revision) (e : Event) (w : World) : World :=
  match e with
  | AnimationFrame fr => animate_rev rev fr w
  | KeyDown key c => set_keys (onKey true key c (keys w)) w
  | KeyUp key c => set_keys (onKey false key c (keys w)) w
  | JoystickLeftMove d a => onJoystick (joystickLeft_move d a) w
  | JoystickLeftEnd => onJoystick joystickLeft_end w
  | JoystickRightMove d a => onJoystick (joystickRight_move d a) w
  | JoystickRightEnd => onJoystick joystickRight_end w
  | TimerFired id =>
      if decide (id ∈ timers (host w)) then
        resetSimulation
          (set_host (set_timers (timers (host w) ∖ {[ id ]}) (nextTimerId (host w)) (host w)) w)
      else w
  end.

(** A run of the event loop, oldest event first. *)
Definition run (rev : Revision) (es : list Event) (w : World) : World :=
  fold_left (fun w e => step rev e w) es w.

(** How often a message occurs on the console. *)
Definition occurrences (msg : string) (log : list string) : nat :=
  length (filter (fun m => m = msg) log).

(** A run without reset: no timer fires. *)
Definition noReset (es : list Event) : Prop :=
  Forall (fun e => match e with TimerFired _ => False | _ => True end) es.


(** ** The state the loop starts from *)

Definition LAVA_POOL_Y_OFFSET : R := 0.5.

(** The state [initPhysicsAndScenery] hands to the first [animate] when the
    model, the particle texture and the terrain are all available: aircraft
    150 above the ground at [(0, TERRAIN_SIZE / 3)], at rest, every particle
    system freshly created.  [touch] is [isTouchDevice] (the joystick zones
    are taken to exist); [random] is the sequence [Math.random] will deliver
    from now on.  Console output written while loading is not kept. *)
Definition initPhysicsAndScenery (touch : bool) (random : nat -> R) : World :=
  let startX := 0 in
  let startZ := TERRAIN_SIZE / 3 in
  let terrainHeightAtStart := getProceduralTerrainHeight startX startZ in
  let startY := Rmax terrainHeightAtStart WATER_LEVEL + 150 in
  let start := vec3 startX startY startZ in
  {| host := {| elapsedTime := 0; rng := random; rngUsed := 0; timers := ∅;
                nextTimerId := 1%positive; console := [] |};
     assets := {| isTouchDevice := touch; joysticksCreated := touch;
                  particleTexture := true; terrainMesh := true;
                  leftWingTip := Some (vec3 (-6) 0.5 1);
                  rightWingTip := Some (vec3 6 0.5 1);
                  engineNozzleLeft := Some (vec3 (-0.8) 1.9 7.0);
                  engineNozzleRight := Some (vec3 0.8 1.9 7.0);
                  INITIAL_AIRCRAFT_POS := start;
                  INITIAL_AIRCRAFT_QUAT := Quat.identity;
                  VOLCANO_CRATER_CENTER_Y :=
                    vec3 0 ((VOLCANO_HEIGHT - CRATER_DEPTH) + LAVA_POOL_Y_OFFSET) 0 |};
     keys := ∅;
     touchControls := initialTouchControls;
     controlParams := defaultControlParams;
     flight := {| aircraftModel :=
                    Some {| position := start; quaternion := Quat.identity;
                            visible := true |};
                  playerVelocity := V3.zero; playerAngularVelocity := V3.zero;
                  isCrashing := false; crashResetTimeout := None |};
     particles := {| leftWingTrail := Some (createTrail defaultControlParams);
                     rightWingTrail := Some (createTrail defaultControlParams);
                     currentTrailIndex_left := 0; currentTrailIndex_right := 0;
                     trailEmitLogTimer := 0;
                     volcanoSmokeSystem := Some (createVolcanoSmokeSystem defaultControlParams);
                     currentSmokeIndex := 0;
                     engineBurnSystem := Some (createEngineBurnSystem defaultControlParams);
                     currentEngineIndex := 0;
                     crashExplosionSystem :=
                       Some (createCrashExplosionSystem defaultControlParams);
                     currentExplosionIndex := 0 |};
     view := {| camera_position := vec3 0 300 (TERRAIN_SIZE * 0.8);
                camera_lookAt := None;
                fog_near := baseFogNear defaultControlParams;
                fog_far := baseFogFar defaultControlParams;
                hud_speed := 0; hud_altitude := 0 |} |}.

#[global] Arguments createPoints : simpl never.

(** A keyboard session at the start of the loop, every draw of the random
    source being 1/2. *)
Definition startWorld : World := initPhysicsAndScenery false (fun _ => 0.5).

(** A frame at 60 Hz and a frame after a hitch, clamped to 0.1 s; the later
    clock queries of the frame follow immediately. *)
Definition frame60 : Frame :=
  {| d_animate := 1 / 60; d_trails := 0; d_smoke := 0; d_engine := 0;
     d_explosion := 0; d_trigger := 0 |}.
Definition hitchFrame : Frame :=
  {| d_animate := 0.1; d_trails := 0; d_smoke := 0; d_engine := 0;
     d_explosion := 0; d_trigger := 0 |}.

(** The aircraft of the idle-decay scenario: high above any terrain, drifting
    at 0.3 along x, no key pressed. *)
Definition idlePose : Object3D :=
  {| position := vec3 0 1000 0; quaternion := Quat.identity; visible := true |}.
Definition idleWorld : World :=
  set_pose idlePose (set_velocities (vec3 0.3 0 0) V3.zero startWorld).

(** ** Vocabulary of the statements *)

(** The clamped frame time [deltaTime] of a frame. *)
Definition frameTime (fr : Frame) : R := Rmin (d_animate fr) 0.1.

(** The world [animate] runs its physics and view stages on: clock advanced,
    particle systems updated. *)
Definition afterEffects (rev : Revision) (fr : Frame) (w : World) : World :=
  updateEffects rev fr (Rmin (d_animate fr) 0.1)
    (set_host (snd (Clock_getDelta (d_animate fr) (host w))) w).

(** The world after the physics block of a frame, before the view stage. *)
Definition afterPhysics (rev : Revision) (fr : Frame) (w : World) : World :=
  if isCrashing (flight w) then afterEffects rev fr w
  else physics rev fr (frameTime fr) (afterEffects rev fr w).

(** Two hosts that differ at most in the clock and in the number of random
    draws consumed. *)
Definition hostFrame (h h' : Host) : Prop :=
  console h' = console h /\ timers h' = timers h /\
  nextTimerId h' = nextTimerId h /\ rng h' = rng h.

(** Two worlds that agree on everything but particle buffers, clock and
    random draws. *)
Definition effectsFrame (w w' : World) : Prop :=
  flight w' = flight w /\ assets w' = assets w /\ keys w' = keys w /\
  touchControls w' = touchControls w /\ controlParams w' = controlParams w /\
  view w' = view w /\ hostFrame (host w) (host w') /\
  (is_Some (crashExplosionSystem (particles w'))
     <-> is_Some (crashExplosionSystem (particles w))) /\
  currentExplosionIndex (particles w') = currentExplosionIndex (particles w).

(** The cap the speed-cap step applies for a given input. *)
Definition currentMaxSpeed (cp : ControlParams) (inp : ControlInput) : R :=
  maxSpeed cp * (if afterburnerInput inp then afterburnerMultiplier cp else 1.0).

(** The largest cap a configuration can apply: afterburner on. *)
Definition speedLimit (cp : ControlParams) : R := maxSpeed cp * afterburnerMultiplier cp.

(** Tuning values within the ranges of the control panel, as far as the speed
    cap needs them ([maxSpeed] in [10, 200], [afterburnerMultiplier] in
    [1.1, 5]). *)
Definition capParamsOk (cp : ControlParams) : Prop :=
  0.001 <= maxSpeed cp /\ 1 <= afterburnerMultiplier cp.

(** Whether [triggerCrashExplosion] gets past its guard. *)
Definition explosionReady (w : World) : bool :=
  bool_decide (is_Some (crashExplosionSystem (particles w))) && particleTexture (assets w).

(** What the crash-entry sequence writes to the console. *)
Definition crashMessages (w : World) : list string :=
  "CRASH DETECTED!"%string ::
    (if explosionReady w then ["--- Triggering Crash Explosion ---"%string] else []).

Definition crashLog (w : World) : nat :=
  occurrences "CRASH DETECTED!" (console (host w)).
Definition triggerLog (w : World) : nat :=
  occurrences "--- Triggering Crash Explosion ---" (console (host w)).

(** What one turn of the event loop does to the crash state machine. *)
Definition staysFlying (w w' : World) : Prop :=
  isCrashing (flight w') = false /\ console (host w') = console (host w) /\
  nextTimerId (host w') = nextTimerId (host w) /\ timers (host w') = timers (host w) /\
  crashResetTimeout (flight w') = crashResetTimeout (flight w).

Definition entersCrash (w w' : World) : Prop :=
  isCrashing (flight w') = true /\
  console (host w') = console (host w) ++ crashMessages w /\
  nextTimerId (host w') = Pos.succ (nextTimerId (host w)) /\
  crashResetTimeout (flight w') = Some (nextTimerId (host w)) /\
  nextTimerId (host w) ∈ timers (host w') /\
  playerVelocity (flight w') = V3.zero /\ playerAngularVelocity (flight w') = V3.zero /\
  (visible <$> aircraftModel (flight w')) = Some false.

Definition staysCrashing (w w' : World) : Prop :=
  flight w' = flight w /\ console (host w') = console (host w) /\
  nextTimerId (host w') = nextTimerId (host w) /\ timers (host w') = timers (host w) /\
  currentExplosionIndex (particles w') = currentExplosionIndex (particles w).

Definition isTimer (e : Event) : Prop :=
  match e with TimerFired _ => True | _ => False end.

(** Between [w] and [w'] the crash-entry sequence ran [n] times: [n] crash
    messages, [n] explosion bursts (when the explosion system exists), [n]
    timers scheduled. *)
Definition ranSince (w w' : World) (n : nat) : Prop :=
  crashLog w' = (crashLog w + n)%nat /\
  triggerLog w' = (triggerLog w + if explosionReady w then n else 0)%nat /\
  nextTimerId (host w') = Nat.iter n Pos.succ (nextTimerId (host w)).

(** The ground-proximity condition of the collision check, on the pose and
    velocity the frame has computed. *)
Definition groundProximity (w : World) (a : Object3D) : Prop :=
  aircraftModel (flight w) = Some a /\ terrainMesh (assets w) = true /\
  v_y (position a)
    < Rmax (getProceduralTerrainHeight (v_x (position a)) (v_z (position a))) WATER_LEVEL
      + AIRCRAFT_GROUND_BUFFER /\
  v_y (playerVelocity (flight w)) < CRASH_VELOCITY_THRESHOLD.

(** The idle-thrust scenario: default tuning, aircraft present
    and flying, no thrust, no brake, and nothing to collide with (no terrain
    mesh, or an altitude above the highest terrain plus the ground buffer). *)
Definition idleScenario (rev : Revision) (w : World) (a : Object3D) : Prop :=
  controlParams w = defaultControlParams /\
  aircraftModel (flight w) = Some a /\
  isCrashing (flight w) = false /\
  playerVelocity (flight w) = vec3 0.3 0 0 /\
  thrustInput (controlsOf rev w) = 0 /\
  brakeInput (controlsOf rev w) = false /\
  (terrainMesh (assets w) = false \/ 541.5 <= v_y (position a)).

(** The five attribute values of slot [i]. *)
Definition slot (sys : Points) (i : nat)
    : option Vector3 * option Vector3 * option R * option R * option R :=
  (positions sys !! i, velocities sys !! i, startTimes sys !! i, alphas sys !! i,
   sizes sys !! i).


(** A system whose five attributes have [n] entries each, as
    [createPoints n true _] allocates them. *)
Definition hasCapacity (n : nat) (sys : Points) : Prop :=
  length (positions sys) = n /\ length (velocities sys) = n /\
  length (startTimes sys) = n /\ length (alphas sys) = n /\ length (sizes sys) = n.





(** * Verification *)

(** The clock queries of an update function, reduced to their results. *)
Ltac run_clock :=
  cbv beta iota zeta delta [Clock_getElapsedTime Clock_getDelta snd fst].

(** Case analysis on an event, with the names the proofs use. *)
Ltac by_event e :=
  destruct e as [fr | k c | k c | d a | | d a | | tid].

(** ** Loops *)

Lemma for_loop_S {S : Type} (n : nat) (body : nat -> S -> S) (s : S) :
  for_loop (Datatypes.S n) body s = body n (for_loop n body s).
Proof.
  unfold for_loop. rewrite seq_S, fold_left_app. reflexivity.
Qed.

Lemma for_loop_0 {S : Type} (body : nat -> S -> S) (s : S) : for_loop 0 body s = s.
Proof. reflexivity. Qed.

Lemma for_loop_invariant {S : Type} (P : S -> Prop) (n : nat) (body : nat -> S -> S) (s : S) :
  P s -> (forall i s, (i < n)%nat -> P s -> P (body i s)) -> P (for_loop n body s).
Proof.
  intros H0 Hstep. induction n as [| n IH].
  - exact H0.
  - rewrite for_loop_S. apply Hstep; [lia |]. apply IH. intros; apply Hstep; [lia | assumption].
Qed.

(** ** What the particle updates leave alone *)

Lemma hostFrame_refl h : hostFrame h h.
Proof. repeat split. Qed.

Lemma hostFrame_trans h1 h2 h3 : hostFrame h1 h2 -> hostFrame h2 h3 -> hostFrame h1 h3.
Proof. unfold hostFrame. intros (?&?&?&?) (?&?&?&?). repeat split; congruence. Qed.

Lemma hostFrame_random h : hostFrame h (snd (Math_random h)).
Proof. repeat split. Qed.

Lemma hostFrame_clock d h : hostFrame h (snd (Clock_getElapsedTime d h)).
Proof. repeat split. Qed.

Lemma explosionEmit_host cp pos t st :
  hostFrame (snd st) (snd (explosionEmit cp pos t st)).
Proof. destruct st as [[sys i] h]. repeat split. Qed.

Lemma smokeEmit_host cp y t st : hostFrame (snd st) (snd (smokeEmit cp y t st)).
Proof. destruct st as [[sys i] h]. repeat split. Qed.

Lemma engineEmit_host cp l r t i st : hostFrame (snd st) (snd (engineEmit cp l r t i st)).
Proof. destruct st as [[sys k] h]. repeat split. Qed.

Lemma smokeSlot_host t l tu dt i st : hostFrame (snd st) (snd (smokeSlot t l tu dt i st)).
Proof.
  destruct st as [sys h]. unfold smokeSlot, Math_random.
  repeat case_match; repeat split.
Qed.

Lemma loop_host {S : Type} (n : nat) (body : nat -> S * Host -> S * Host) (st : S * Host) :
  (forall i st, hostFrame (snd st) (snd (body i st))) ->
  hostFrame (snd st) (snd (for_loop n body st)).
Proof.
  intros Hb. apply (for_loop_invariant (fun s => hostFrame (snd st) (snd s))).
  - apply hostFrame_refl.
  - intros i s _ H. eapply hostFrame_trans; [exact H | apply Hb].
Qed.

Lemma effectsFrame_refl w : effectsFrame w w.
Proof. repeat split; auto. Qed.

Lemma effectsFrame_trans w1 w2 w3 :
  effectsFrame w1 w2 -> effectsFrame w2 w3 -> effectsFrame w1 w3.
Proof.
  intros (Hf1&Ha1&Hk1&Ht1&Hc1&Hv1&Hh1&Hs1&Hi1) (Hf2&Ha2&Hk2&Ht2&Hc2&Hv2&Hh2&Hs2&Hi2).
  unfold effectsFrame.
  rewrite Hf2, Ha2, Hk2, Ht2, Hc2, Hv2, Hs2, Hi2.
  pose proof (hostFrame_trans _ _ _ Hh1 Hh2) as (?&?&?&?).
  repeat split; try assumption; tauto.
Qed.

Lemma updateCrashExplosion_frame d w : effectsFrame w (updateCrashExplosion d w).
Proof.
  unfold updateCrashExplosion.
  destruct (crashExplosionSystem (particles w)) eqn:E; [| apply effectsFrame_refl].
  destruct (particleTexture (assets w)); [| apply effectsFrame_refl].
  cbn. repeat split; cbn; auto; rewrite ?E; eauto.
Qed.

Lemma triggerCrashExplosion_frame d pos w :
  flight (triggerCrashExplosion d pos w) = flight w /\
  assets (triggerCrashExplosion d pos w) = assets w /\
  keys (triggerCrashExplosion d pos w) = keys w /\
  touchControls (triggerCrashExplosion d pos w) = touchControls w /\
  controlParams (triggerCrashExplosion d pos w) = controlParams w /\
  view (triggerCrashExplosion d pos w) = view w /\
  timers (host (triggerCrashExplosion d pos w)) = timers (host w) /\
  nextTimerId (host (triggerCrashExplosion d pos w)) = nextTimerId (host w) /\
  (is_Some (crashExplosionSystem (particles (triggerCrashExplosion d pos w)))
     <-> is_Some (crashExplosionSystem (particles w))) /\
  console (host (triggerCrashExplosion d pos w)) =
    if bool_decide (is_Some (crashExplosionSystem (particles w))) && particleTexture (assets w)
    then console (host w) ++ ["--- Triggering Crash Explosion ---"%string]
    else console (host w).
Proof.
  unfold triggerCrashExplosion.
  destruct (crashExplosionSystem (particles w)) as [sys |] eqn:E.
  2:{ cbn. rewrite E. repeat split; auto. }
  destruct (particleTexture (assets w)) eqn:Et.
  2:{ rewrite andb_false_r. rewrite E. repeat split; auto. }
  rewrite bool_decide_eq_true_2 by eauto. cbn [andb].
  run_clock.
  match goal with |- context [for_loop ?n ?b ?s] =>
    pose proof (loop_host (S := Points * nat) n b s
                  (fun i st => explosionEmit_host _ _ _ st)) as Hh;
    destruct (for_loop n b s) as [[sys' idx'] h'] end.
  cbn in Hh. destruct Hh as (Hc & Ht & Hn & Hr).
  cbn. repeat split; auto; rewrite ?E; eauto.
Qed.

Lemma updateTrails_frame d dt w : effectsFrame w (updateTrails d dt w).
Proof.
  unfold updateTrails.
  run_clock.
  repeat (case_match; try apply effectsFrame_refl);
    repeat split; cbn; auto.
Qed.

Lemma updateVolcanoSmoke_frame d dt w : effectsFrame w (updateVolcanoSmoke d dt w).
Proof.
  unfold updateVolcanoSmoke.
  destruct (volcanoSmokeSystem (particles w)) as [sys |]; [| apply effectsFrame_refl].
  destruct (particleTexture (assets w)); [| apply effectsFrame_refl].
  run_clock.
  match goal with |- context [for_loop ?n ?b ?s] =>
    pose proof (loop_host (S := Points * nat) n b s
                  (fun i st => smokeEmit_host _ _ _ st)) as Hh;
    destruct (for_loop n b s) as [[sys' idx'] h'] end.
  unfold smokeAgeing.
  match goal with |- context [for_loop ?n ?b ?s] =>
    pose proof (loop_host (S := Points) n b s
                  (fun i st => smokeSlot_host _ _ _ _ i st)) as Hh2;
    destruct (for_loop n b s) as [sys'' h''] end.
  cbn in Hh, Hh2.
  pose proof (hostFrame_trans _ _ _ Hh Hh2) as (?&?&?&?).
  repeat split; cbn; auto.
Qed.

Lemma engineBurnBody_frame b t dt l r sys h w :
  hostFrame (host w) h ->
  effectsFrame w (engineBurnBody b t dt l r sys h w).
Proof.
  intros Hh0. unfold engineBurnBody. cbv zeta.
  match goal with |- context [if ?c then for_loop ?n ?bd ?s else ?e] =>
    assert (hostFrame h (snd (if c then for_loop n bd s else e))) as Hh;
      [ destruct c;
        [ apply (loop_host (S := Points * nat) n bd s);
          intros i st; apply engineEmit_host
        | apply hostFrame_refl ]
      | destruct (if c then for_loop n bd s else e) as [[sys' idx'] h'] ]
  end.
  cbn in Hh. pose proof (hostFrame_trans _ _ _ Hh0 Hh) as (?&?&?&?).
  repeat split; cbn; auto.
Qed.

Lemma updateEngineBurn_frame d dt w : effectsFrame w (updateEngineBurn d dt w).
Proof.
  unfold updateEngineBurn.
  run_clock.
  repeat (case_match; try apply effectsFrame_refl);
    apply engineBurnBody_frame; repeat split.
Qed.

Lemma updateEngineBurn_kbd_frame d dt w : effectsFrame w (updateEngineBurn_kbd d dt w).
Proof.
  unfold updateEngineBurn_kbd.
  run_clock.
  repeat (case_match; try apply effectsFrame_refl);
    apply engineBurnBody_frame; repeat split.
Qed.

Lemma updateEffects_frame rev fr dt w : effectsFrame w (updateEffects rev fr dt w).
Proof.
  unfold updateEffects.
  destruct (particleTexture (assets w)); [| apply effectsFrame_refl].
  eapply effectsFrame_trans; [| apply updateCrashExplosion_frame].
  eapply effectsFrame_trans.
  2:{ destruct rev; [apply updateEngineBurn_frame | apply updateEngineBurn_kbd_frame]. }
  eapply effectsFrame_trans; [apply updateTrails_frame | apply updateVolcanoSmoke_frame].
Qed.

Lemma afterEffects_frame rev fr w : effectsFrame w (afterEffects rev fr w).
Proof.
  unfold afterEffects.
  eapply effectsFrame_trans; [| apply updateEffects_frame].
  repeat split; auto.
Qed.

Lemma animate_rev_unfold rev fr w :
  animate_rev rev fr w =
    let dt := Rmin (d_animate fr) 0.1 in
    let w1 := afterEffects rev fr w in
    match aircraftModel (flight w) with
    | Some _ =>
        let w2 := if negb (isCrashing (flight w)) then physics rev fr dt w1 else w1 in
        match aircraftModel (flight w2) with
        | Some a => updateView dt a w2
        | None => updateHudOnly w2
        end
    | None => updateHudOnly w1
    end.
Proof.
  unfold animate_rev. cbv beta iota zeta delta [Clock_getDelta].
  pose proof (afterEffects_frame rev fr w) as (Hf & _).
  unfold afterEffects, Clock_getDelta in *. cbn [snd fst] in *.
  rewrite Hf. cbn [THREE.defined]. reflexivity.
Qed.

(** ** Height field *)



Lemma clamp_le_hi (v lo hi : R) : lo <= hi -> MathUtils.clamp v lo hi <= hi.
Proof.
  intros H. unfold MathUtils.clamp.
  apply Rmax_lub; [lra | apply Rmin_l].
Qed.








(** ** World wrap *)

Lemma WORLD_BOUNDARY_value : WORLD_BOUNDARY = 1187.5.
Proof. unfold WORLD_BOUNDARY, TERRAIN_SIZE. lra. Qed.

(** C9: the boundary check teleports to the opposite edge with a 1-unit
    inset, on either side of either horizontal axis; in particular from
    [x = WORLD_BOUNDARY + 5] to [x = - WORLD_BOUNDARY + 1]. *)
Theorem worldWrap_teleports (p : Vector3) :
  (v_x p = WORLD_BOUNDARY + 5 -> v_x (worldWrap p) = - WORLD_BOUNDARY + 1) /\
  (v_x p > WORLD_BOUNDARY -> v_x (worldWrap p) = - WORLD_BOUNDARY + 1) /\
  (v_x p < - WORLD_BOUNDARY -> v_x (worldWrap p) = WORLD_BOUNDARY - 1) /\
  (v_z p > WORLD_BOUNDARY -> v_z (worldWrap p) = - WORLD_BOUNDARY + 1) /\
  (v_z p < - WORLD_BOUNDARY -> v_z (worldWrap p) = WORLD_BOUNDARY - 1) /\
  v_y (worldWrap p) = v_y p.
Proof.
  pose proof WORLD_BOUNDARY_value as HB.
  destruct p as [x y z]. unfold worldWrap. cbn [v_x v_y v_z].
  repeat split; intros;
    repeat (case_decide; cbn [v_x v_y v_z V3.set_x V3.set_z] in *); try lra.
Qed.

(** ** Vectors *)

Lemma lengthSq_nonneg (v : Vector3) : 0 <= V3.lengthSq v.
Proof. unfold V3.lengthSq. nra. Qed.

Lemma lengthSq_zero : V3.lengthSq V3.zero = 0.
Proof. unfold V3.lengthSq, V3.zero. cbn. lra. Qed.

Lemma lengthSq_multiplyScalar (v : Vector3) (s : R) :
  V3.lengthSq (V3.multiplyScalar v s) = V3.lengthSq v * (s * s).
Proof. unfold V3.lengthSq, V3.multiplyScalar. cbn. ring. Qed.

Lemma length_pos (v : Vector3) : 0 < V3.lengthSq v -> 0 < V3.length v.
Proof. intros H. unfold V3.length. apply sqrt_lt_R0. exact H. Qed.

Lemma normalize_scales (v : Vector3) :
  0 < V3.lengthSq v -> V3.normalize v = V3.multiplyScalar v (1 / V3.length v).
Proof.
  intros H. pose proof (length_pos v H) as Hl.
  unfold V3.normalize, V3.divideScalar.
  destruct (decide (V3.length v = 0)); [lra | reflexivity].
Qed.

Lemma normalize_lengthSq (v : Vector3) :
  0 < V3.lengthSq v -> V3.lengthSq (V3.normalize v) = 1.
Proof.
  intros H. rewrite normalize_scales by exact H.
  rewrite lengthSq_multiplyScalar.
  pose proof (length_pos v H) as Hl.
  assert (V3.length v * V3.length v = V3.lengthSq v) as Hs
    by (unfold V3.length; apply sqrt_sqrt; lra).
  rewrite <- Hs. field. lra.
Qed.

Lemma length_le_of_lengthSq (v : Vector3) (c : R) :
  0 <= c -> V3.lengthSq v <= c * c -> V3.length v <= c.
Proof.
  intros Hc H. unfold V3.length.
  rewrite <- (sqrt_square c) by exact Hc.
  apply sqrt_le_1_alt. exact H.
Qed.

(** ** The speed cap and the steps after it *)

Lemma speedCap_rescaled (cp : ControlParams) (inp : ControlInput) (v : Vector3) :
  V3.lengthSq v > currentMaxSpeed cp inp * currentMaxSpeed cp inp ->
  V3.lengthSq v > 1e-6 ->
  speedCap cp inp v = V3.multiplyScalar v (currentMaxSpeed cp inp / V3.length v) /\
  V3.lengthSq (speedCap cp inp v) = currentMaxSpeed cp inp * currentMaxSpeed cp inp.
Proof.
  intros Hover Hbig. unfold speedCap. fold (currentMaxSpeed cp inp).
  rewrite decide_True by exact Hover. rewrite decide_True by exact Hbig.
  assert (0 < V3.lengthSq v) as Hpos by lra.
  pose proof (length_pos v Hpos) as Hl.
  split.
  - rewrite normalize_scales by exact Hpos.
    unfold V3.multiplyScalar. cbn. f_equal; field; lra.
  - rewrite lengthSq_multiplyScalar, normalize_lengthSq by exact Hpos. ring.
Qed.

Lemma speedCap_within (cp : ControlParams) (inp : ControlInput) (v : Vector3) :
  V3.lengthSq v <= currentMaxSpeed cp inp * currentMaxSpeed cp inp ->
  speedCap cp inp v = v.
Proof.
  intros H. unfold speedCap. fold (currentMaxSpeed cp inp).
  rewrite decide_False by lra. reflexivity.
Qed.

Lemma speedCap_lengthSq (cp : ControlParams) (inp : ControlInput) (v : Vector3) :
  V3.lengthSq (speedCap cp inp v)
    <= Rmax (currentMaxSpeed cp inp * currentMaxSpeed cp inp) 1e-6.
Proof.
  destruct (decide (V3.lengthSq v > currentMaxSpeed cp inp * currentMaxSpeed cp inp)) as [Ho | Hn].
  - destruct (decide (V3.lengthSq v > 1e-6)) as [Hb | Hs].
    + destruct (speedCap_rescaled cp inp v Ho Hb) as [_ ->]. apply Rmax_l.
    + unfold speedCap. fold (currentMaxSpeed cp inp).
      rewrite decide_True by exact Ho. rewrite decide_False by exact Hs.
      eapply Rle_trans; [| apply Rmax_r]. lra.
  - rewrite speedCap_within by lra.
    eapply Rle_trans; [| apply Rmax_l]. lra.
Qed.

Lemma idleDecay_lengthSq cp inp v : V3.lengthSq (idleDecay cp inp v) <= V3.lengthSq v.
Proof.
  pose proof (lengthSq_nonneg v) as Hv.
  unfold idleDecay. repeat case_match; try lra.
  - rewrite lengthSq_zero. exact Hv.
  - rewrite lengthSq_multiplyScalar. lra.
Qed.

Lemma idleDecay_kbd_lengthSq cp b v : V3.lengthSq (idleDecay_kbd cp b v) <= V3.lengthSq v.
Proof.
  pose proof (lengthSq_nonneg v) as Hv.
  unfold idleDecay_kbd. repeat case_match; try lra.
  - rewrite lengthSq_zero. exact Hv.
  - rewrite lengthSq_multiplyScalar. lra.
Qed.

Lemma capParams_bound cp inp :
  capParamsOk cp ->
  Rmax (currentMaxSpeed cp inp * currentMaxSpeed cp inp) 1e-6 <= speedLimit cp * speedLimit cp.
Proof.
  intros [Hm Ha]. unfold currentMaxSpeed, speedLimit.
  set (m := maxSpeed cp) in *. set (a := afterburnerMultiplier cp) in *.
  assert (0 <= m * m * (a * a - 1)) as Hp by (apply Rmult_le_pos; nra).
  apply Rmax_lub.
  - destruct (afterburnerInput inp); nra.
  - assert (0.001 * 0.001 <= m * m) by nra. nra.
Qed.

(** ** The physics block *)

Lemma integrate_frame rev dt w :
  host (integrate rev dt w) = host w /\ assets (integrate rev dt w) = assets w /\
  keys (integrate rev dt w) = keys w /\
  touchControls (integrate rev dt w) = touchControls w /\
  controlParams (integrate rev dt w) = controlParams w /\
  particles (integrate rev dt w) = particles w /\ view (integrate rev dt w) = view w /\
  isCrashing (flight (integrate rev dt w)) = isCrashing (flight w) /\
  crashResetTimeout (flight (integrate rev dt w)) = crashResetTimeout (flight w) /\
  (is_Some (aircraftModel (flight (integrate rev dt w)))
     <-> is_Some (aircraftModel (flight w))).
Proof.
  unfold integrate. destruct (aircraftModel (flight w)) eqn:E.
  - cbn. repeat split; eauto.
  - rewrite E. repeat split; auto.
Qed.

Lemma integrate_flight rev dt w a :
  aircraftModel (flight w) = Some a ->
  let cp := controlParams w in
  let inp := controlsOf rev w in
  let angVel := angularUpdate cp inp dt (playerAngularVelocity (flight w)) in
  let q := orientationUpdate (quaternion a) angVel dt in
  let capped := speedCap cp inp (applyForces cp inp dt q (playerVelocity (flight w))) in
  let velocity :=
    match rev with
    | TouchControlsRev => idleDecay cp inp capped
    | KeyboardOnlyRev => idleDecay_kbd cp (keyDown (keys w) " ") capped
    end in
  flight (integrate rev dt w) =
    {| aircraftModel :=
         Some {| position := worldWrap (V3.addScaledVector (position a) velocity dt);
                 quaternion := q; visible := visible a |};
       playerVelocity := velocity;
       playerAngularVelocity := angVel;
       isCrashing := isCrashing (flight w);
       crashResetTimeout := crashResetTimeout (flight w) |}.
Proof.
  intros E. unfold integrate. rewrite E. reflexivity.
Qed.

Lemma groundContact_frame g a w :
  host (groundContact g a w) = host w /\ assets (groundContact g a w) = assets w /\
  keys (groundContact g a w) = keys w /\
  touchControls (groundContact g a w) = touchControls w /\
  controlParams (groundContact g a w) = controlParams w /\
  particles (groundContact g a w) = particles w /\ view (groundContact g a w) = view w /\
  isCrashing (flight (groundContact g a w)) = isCrashing (flight w) /\
  crashResetTimeout (flight (groundContact g a w)) = crashResetTimeout (flight w) /\
  aircraftModel (flight (groundContact g a w)) =
    Some {| position := V3.set_y (position a) (g + AIRCRAFT_GROUND_BUFFER);
            quaternion := quaternion a; visible := visible a |} /\
  (exists c : R, 0 <= c <= 1 /\
     playerAngularVelocity (flight (groundContact g a w))
       = V3.multiplyScalar (playerAngularVelocity (flight w)) c) /\
  V3.lengthSq (playerVelocity (flight (groundContact g a w)))
    <= V3.lengthSq (playerVelocity (flight w)).
Proof.
  unfold groundContact. cbn.
  destruct (decide (v_y (playerVelocity (flight w)) < 0)); cbn; repeat split; auto.
  - exists 0.5. split; [lra | reflexivity].
  - unfold V3.lengthSq. cbn. nra.
  - exists 1. split; [lra |]. unfold V3.multiplyScalar.
    destruct (playerAngularVelocity (flight w)); cbn. f_equal; lra.
  - lra.
Qed.

Lemma enterCrash_spec d a w :
  flight (enterCrash d a w) =
    {| aircraftModel :=
         Some {| position := position a; quaternion := quaternion a; visible := false |};
       playerVelocity := V3.zero; playerAngularVelocity := V3.zero;
       isCrashing := true;
       crashResetTimeout := Some (nextTimerId (host w)) |} /\
  console (host (enterCrash d a w)) = console (host w) ++ crashMessages w /\
  nextTimerId (host (enterCrash d a w)) = Pos.succ (nextTimerId (host w)) /\
  timers (host (enterCrash d a w)) =
    {[ nextTimerId (host w) ]} ∪
      match crashResetTimeout (flight w) with
      | Some id => timers (host w) ∖ {[ id ]}
      | None => timers (host w)
      end /\
  assets (enterCrash d a w) = assets w /\ keys (enterCrash d a w) = keys w /\
  touchControls (enterCrash d a w) = touchControls w /\
  controlParams (enterCrash d a w) = controlParams w /\
  view (enterCrash d a w) = view w /\
  particles (enterCrash d a w) =
    particles (triggerCrashExplosion d (position a)
                 (set_isCrashing true
                    (set_host (console_log "CRASH DETECTED!" (host w)) w))).
Proof.
  unfold enterCrash. cbv zeta.
  set (w1 := set_isCrashing true (set_host (console_log "CRASH DETECTED!" (host w)) w)).
  pose proof (triggerCrashExplosion_frame d (position a) w1)
    as (Hf & Ha & Hk & Htc & Hcp & Hv & Ht & Hn & Hs & Hc).
  set (w2 := triggerCrashExplosion d (position a) w1) in *.
  assert (crashResetTimeout (flight w2) = crashResetTimeout (flight w)) as Hcr
    by (rewrite Hf; reflexivity).
  assert (console (host w2) = console (host w) ++ crashMessages w) as Hcon.
  { rewrite Hc. unfold crashMessages, explosionReady. subst w1. cbn.
    destruct (bool_decide _ && _); cbn; [rewrite <- app_assoc |]; reflexivity. }
  assert (isCrashing (flight w2) = true) as Hic by (rewrite Hf; reflexivity).
  clearbody w2.
  cbn [setTimeout]. cbn -[union difference singleton].
  rewrite Hcr. destruct (crashResetTimeout (flight w)) as [id |];
    cbn -[union difference singleton];
    rewrite ?Ha, ?Hk, ?Htc, ?Hcp, ?Hv, ?Ht, ?Hn, ?Hcon, ?Hic;
    repeat split; reflexivity.
Qed.

Lemma collisionCheck_cases d w :
  collisionCheck d w = w \/
  (exists a g, aircraftModel (flight w) = Some a /\ collisionCheck d w = groundContact g a w) \/
  (exists a, aircraftModel (flight w) = Some a /\ isCrashing (flight w) = false /\
             collisionCheck d w = enterCrash d a w).
Proof.
  unfold collisionCheck.
  destruct (aircraftModel (flight w)) as [a |]; [| auto].
  destruct (terrainMesh (assets w)); [| auto].
  cbv zeta. repeat case_match; auto.
  - right. right. exists a. destruct (isCrashing (flight w)); [discriminate | auto].
  - right. left. eauto.
Qed.

(** ** The frame as a whole *)

Lemma physics_no_aircraft rev fr dt w :
  aircraftModel (flight w) = None -> physics rev fr dt w = w.
Proof.
  intros E. unfold physics, integrate. rewrite E.
  unfold collisionCheck. rewrite E. reflexivity.
Qed.

Lemma physics_keeps_aircraft rev fr dt w :
  is_Some (aircraftModel (flight (physics rev fr dt w))) <-> is_Some (aircraftModel (flight w)).
Proof.
  unfold physics.
  pose proof (integrate_frame rev dt w) as (_&_&_&_&_&_&_&_&_&Hi).
  rewrite <- Hi. set (w1 := integrate rev dt w). clearbody w1.
  destruct (collisionCheck_cases (d_trigger fr) w1) as [-> | [(a & g & E & ->) | (a & E & _ & ->)]].
  - tauto.
  - pose proof (groundContact_frame g a w1) as (_&_&_&_&_&_&_&_&_&Ha&_).
    rewrite Ha, E. split; eauto.
  - pose proof (enterCrash_spec (d_trigger fr) a w1) as (Hf & _).
    rewrite Hf, E. cbn. split; eauto.
Qed.

Lemma view_stage_frame dt a w :
  flight (updateView dt a w) = flight w /\ host (updateView dt a w) = host w /\
  particles (updateView dt a w) = particles w /\ assets (updateView dt a w) = assets w /\
  keys (updateView dt a w) = keys w /\ touchControls (updateView dt a w) = touchControls w /\
  controlParams (updateView dt a w) = controlParams w.
Proof. repeat split. Qed.

Lemma hud_stage_frame w :
  flight (updateHudOnly w) = flight w /\ host (updateHudOnly w) = host w /\
  particles (updateHudOnly w) = particles w /\ assets (updateHudOnly w) = assets w /\
  keys (updateHudOnly w) = keys w /\ touchControls (updateHudOnly w) = touchControls w /\
  controlParams (updateHudOnly w) = controlParams w.
Proof. repeat split. Qed.

(** Everything but the view is decided before the view stage. *)
Lemma animate_rev_core rev fr w :
  flight (animate_rev rev fr w) = flight (afterPhysics rev fr w) /\
  host (animate_rev rev fr w) = host (afterPhysics rev fr w) /\
  particles (animate_rev rev fr w) = particles (afterPhysics rev fr w) /\
  assets (animate_rev rev fr w) = assets (afterPhysics rev fr w) /\
  keys (animate_rev rev fr w) = keys (afterPhysics rev fr w) /\
  touchControls (animate_rev rev fr w) = touchControls (afterPhysics rev fr w) /\
  controlParams (animate_rev rev fr w) = controlParams (afterPhysics rev fr w).
Proof.
  rewrite animate_rev_unfold. cbv zeta. unfold afterPhysics. fold (frameTime fr).
  pose proof (afterEffects_frame rev fr w) as (Hf & _).
  destruct (aircraftModel (flight w)) as [a |] eqn:E.
  - destruct (isCrashing (flight w)); cbn [negb].
    + destruct (aircraftModel (flight (afterEffects rev fr w)));
        [apply view_stage_frame | apply hud_stage_frame].
    + destruct (aircraftModel (flight (physics rev fr (frameTime fr) (afterEffects rev fr w))));
        [apply view_stage_frame | apply hud_stage_frame].
  - assert (aircraftModel (flight (afterEffects rev fr w)) = None) as E1
      by (rewrite Hf; exact E).
    rewrite (physics_no_aircraft _ _ _ _ E1).
    destruct (isCrashing (flight w)); apply hud_stage_frame.
Qed.

(** ** Speed cap invariant *)

Lemma collisionCheck_core d w :
  controlParams (collisionCheck d w) = controlParams w /\
  assets (collisionCheck d w) = assets w /\ keys (collisionCheck d w) = keys w /\
  touchControls (collisionCheck d w) = touchControls w /\
  V3.lengthSq (playerVelocity (flight (collisionCheck d w)))
    <= V3.lengthSq (playerVelocity (flight w)) /\
  (exists c : R, 0 <= c <= 1 /\
     playerAngularVelocity (flight (collisionCheck d w))
       = V3.multiplyScalar (playerAngularVelocity (flight w)) c).
Proof.
  assert (forall v, v = V3.multiplyScalar v 1) as Hone
    by (intros [x y z]; unfold V3.multiplyScalar; cbn; f_equal; lra).
  destruct (collisionCheck_cases d w) as [-> | [(a & g & E & ->) | (a & E & _ & ->)]].
  - repeat split; try lra. exists 1. split; [lra | apply Hone].
  - pose proof (groundContact_frame g a w) as (_&?&?&?&?&_&_&_&_&_&?&?).
    repeat split; assumption.
  - pose proof (enterCrash_spec d a w) as (Hf&_&_&_&?&?&?&?&_).
    rewrite Hf. cbn [playerVelocity playerAngularVelocity].
    repeat split; try assumption.
    + rewrite lengthSq_zero. apply lengthSq_nonneg.
    + exists 0. split; [lra |]. unfold V3.multiplyScalar, V3.zero. f_equal; lra.
Qed.

Lemma integrate_speed rev dt w :
  capParamsOk (controlParams w) ->
  V3.lengthSq (playerVelocity (flight w))
    <= speedLimit (controlParams w) * speedLimit (controlParams w) ->
  V3.lengthSq (playerVelocity (flight (integrate rev dt w)))
    <= speedLimit (controlParams w) * speedLimit (controlParams w).
Proof.
  intros Hok Hv.
  destruct (aircraftModel (flight w)) as [a |] eqn:E.
  - rewrite (integrate_flight rev dt w a E). cbn [playerVelocity].
    eapply Rle_trans; [| apply (capParams_bound _ (controlsOf rev w) Hok)].
    eapply Rle_trans; [| apply speedCap_lengthSq].
    destruct rev; [apply idleDecay_lengthSq | apply idleDecay_kbd_lengthSq].
  - unfold integrate. rewrite E. exact Hv.
Qed.

Lemma physics_speed rev fr dt w :
  capParamsOk (controlParams w) ->
  V3.lengthSq (playerVelocity (flight w))
    <= speedLimit (controlParams w) * speedLimit (controlParams w) ->
  controlParams (physics rev fr dt w) = controlParams w /\
  V3.lengthSq (playerVelocity (flight (physics rev fr dt w)))
    <= speedLimit (controlParams w) * speedLimit (controlParams w).
Proof.
  intros Hok Hv. unfold physics.
  pose proof (integrate_speed rev dt w Hok Hv) as Hi.
  pose proof (integrate_frame rev dt w) as (_&_&_&_&Hcp&_).
  pose proof (collisionCheck_core (d_trigger fr) (integrate rev dt w)) as (Hc&_&_&_&Hle&_).
  split; [congruence | lra].
Qed.

Lemma afterPhysics_speed rev fr w :
  capParamsOk (controlParams w) ->
  V3.lengthSq (playerVelocity (flight w))
    <= speedLimit (controlParams w) * speedLimit (controlParams w) ->
  controlParams (afterPhysics rev fr w) = controlParams w /\
  V3.lengthSq (playerVelocity (flight (afterPhysics rev fr w)))
    <= speedLimit (controlParams w) * speedLimit (controlParams w).
Proof.
  intros Hok Hv. unfold afterPhysics.
  pose proof (afterEffects_frame rev fr w) as (Hf&_&_&_&Hcp&_).
  destruct (isCrashing (flight w)).
  - rewrite Hf. auto.
  - rewrite <- Hcp in Hok |- *. rewrite <- Hf in Hv.
    rewrite <- Hcp in Hv at 1 2. apply physics_speed; assumption.
Qed.

Lemma resetSimulation_core w :
  controlParams (resetSimulation w) = controlParams w /\
  assets (resetSimulation w) = assets w /\ keys (resetSimulation w) = keys w /\
  touchControls (resetSimulation w) = touchControls w /\
  particles (resetSimulation w) = particles w /\
  (playerVelocity (flight (resetSimulation w)) = V3.zero
   \/ flight (resetSimulation w) = flight w).
Proof.
  unfold resetSimulation. cbv zeta.
  destruct (aircraftModel (flight w)) as [a |] eqn:E; cbn; rewrite E.
  - destruct (crashResetTimeout (flight w)); cbn; repeat split; auto.
  - repeat split; auto.
Qed.

Lemma step_speed rev e w :
  capParamsOk (controlParams w) ->
  V3.lengthSq (playerVelocity (flight w))
    <= speedLimit (controlParams w) * speedLimit (controlParams w) ->
  controlParams (step rev e w) = controlParams w /\
  V3.lengthSq (playerVelocity (flight (step rev e w)))
    <= speedLimit (controlParams w) * speedLimit (controlParams w).
Proof.
  intros Hok Hv. by_event e; cbn [step].
  - pose proof (animate_rev_core rev fr w) as (Hf&_&_&_&_&_&Hcp).
    rewrite Hf, Hcp. apply afterPhysics_speed; assumption.
  - auto.
  - auto.
  - unfold onJoystick. destruct (joysticksCreated (assets w)); auto.
  - unfold onJoystick. destruct (joysticksCreated (assets w)); auto.
  - unfold onJoystick. destruct (joysticksCreated (assets w)); auto.
  - unfold onJoystick. destruct (joysticksCreated (assets w)); auto.
  - destruct (decide (tid ∈ timers (host w))); [| auto].
    match goal with |- context [resetSimulation ?w0] =>
      pose proof (resetSimulation_core w0) as (Hcp&_&_&_&_&[Hz | Hs]) end.
    + split; [exact Hcp |]. rewrite Hz, lengthSq_zero. nra.
    + split; [exact Hcp |]. rewrite Hs. exact Hv.
Qed.

Lemma run_snoc rev es e w : run rev (es ++ [e]) w = step rev e (run rev es w).
Proof. unfold run. rewrite fold_left_app. reflexivity. Qed.

Lemma run_speed rev es w :
  capParamsOk (controlParams w) ->
  V3.lengthSq (playerVelocity (flight w))
    <= speedLimit (controlParams w) * speedLimit (controlParams w) ->
  controlParams (run rev es w) = controlParams w /\
  V3.lengthSq (playerVelocity (flight (run rev es w)))
    <= speedLimit (controlParams w) * speedLimit (controlParams w).
Proof.
  intros Hok Hv. induction es as [| e es IH] using rev_ind.
  - auto.
  - rewrite run_snoc. destruct IH as [Hcp Hle].
    rewrite <- Hcp in Hok, Hle |- *.
    destruct (step_speed rev e (run rev es w) Hok Hle) as [H1 H2].
    split; [exact H1 | exact H2].
Qed.

(** C3: from rest, whatever the host delivers (frames, key and joystick
    events, timer callbacks) and in particular with thrust and afterburner
    held throughout, the speed never exceeds
    [maxSpeed * afterburnerMultiplier] (so neither that bound plus any
    [eps >= 0]).  The cap step leaves a velocity within the current cap
    alone and rescales one above it along its own direction to exactly the
    current cap, and later steps of the frame do not lengthen it. *)
Theorem speed_cap_invariant (rev : Revision) (es : list Event) (w : World) (eps : R) :
  capParamsOk (controlParams w) ->
  0 <= eps ->
  playerVelocity (flight w) = V3.zero ->
  V3.length (playerVelocity (flight (run rev es w)))
    <= maxSpeed (controlParams w) * afterburnerMultiplier (controlParams w) + eps /\
  (forall (inp : ControlInput) (v : Vector3),
      let cap := maxSpeed (controlParams w)
                 * (if afterburnerInput inp then afterburnerMultiplier (controlParams w)
                    else 1.0) in
      V3.lengthSq v > cap * cap ->
      speedCap (controlParams w) inp v = V3.multiplyScalar v (cap / V3.length v) /\
      0 < cap / V3.length v /\
      V3.length (speedCap (controlParams w) inp v) = cap) /\
  (forall (fr : Frame) (w0 : World) (a : Object3D),
      controlParams w0 = controlParams w ->
      aircraftModel (flight w0) = Some a ->
      isCrashing (flight w0) = false ->
      V3.lengthSq (playerVelocity (flight (animate_rev rev fr w0)))
        <= V3.lengthSq
             (speedCap (controlParams w) (controlsOf rev w0)
                (applyForces (controlParams w) (controlsOf rev w0) (frameTime fr)
                   (orientationUpdate (quaternion a)
                      (angularUpdate (controlParams w) (controlsOf rev w0) (frameTime fr)
                         (playerAngularVelocity (flight w0)))
                      (frameTime fr))
                   (playerVelocity (flight w0))))).
Proof.
  intros Hok Heps Hz.
  assert (0 <= speedLimit (controlParams w)) as Hl
    by (destruct Hok; unfold speedLimit; nra).
  split; [| split].
  - assert (V3.lengthSq (playerVelocity (flight w))
            <= speedLimit (controlParams w) * speedLimit (controlParams w)) as Hv
      by (rewrite Hz, lengthSq_zero; nra).
    destruct (run_speed rev es w Hok Hv) as [_ Hle].
    apply length_le_of_lengthSq in Hle; [| exact Hl].
    unfold speedLimit in Hle. lra.
  - intros inp v cap Hover.
    assert (0.001 <= cap) as Hcap.
    { subst cap. destruct Hok. destruct (afterburnerInput inp); nra. }
    assert (V3.lengthSq v > 1e-6) as Hbig by nra.
    destruct (speedCap_rescaled (controlParams w) inp v Hover Hbig) as [He Hq].
    fold (currentMaxSpeed (controlParams w) inp) in cap.
    assert (0 < V3.length v) as Hlen by (apply length_pos; lra).
    split; [exact He |]. split.
    + apply Rdiv_lt_0_compat; lra.
    + unfold V3.length at 1. rewrite Hq. apply sqrt_square. lra.
  - intros fr w0 a Hcp E Hfly.
    pose proof (animate_rev_core rev fr w0) as (Hf&_).
    rewrite Hf. unfold afterPhysics. rewrite Hfly. unfold physics.
    pose proof (afterEffects_frame rev fr w0) as (Hf1&Has&Hk&Htc&Hcp1&_).
    set (w1 := afterEffects rev fr w0) in *.
    pose proof (collisionCheck_core (d_trigger fr) (integrate rev (frameTime fr) w1))
      as (_&_&_&_&Hle&_).
    eapply Rle_trans; [exact Hle |].
    assert (aircraftModel (flight w1) = Some a) as E1 by (rewrite Hf1; exact E).
    rewrite (integrate_flight rev (frameTime fr) w1 a E1). cbn [playerVelocity].
    assert (controlsOf rev w1 = controlsOf rev w0) as Hin.
    { unfold controlsOf, readControls, readControls_kbd. rewrite Has, Hk, Htc. reflexivity. }
    rewrite Hin, Hcp1, Hcp, Hf1.
    destruct rev; [apply idleDecay_lengthSq | apply idleDecay_kbd_lengthSq].
Qed.

(** ** Frozen aircraft while crashing *)

(** C5: a frame that begins with [isCrashing] set leaves position,
    orientation, linear and angular velocity (the whole flight state)
    unchanged, whatever the pose is relative to the world boundary or the
    ground; the frame is exactly the particle updates followed by the
    HUD / fog / camera stage. *)
Theorem crashing_frame_freezes_aircraft (rev : Revision) (fr : Frame) (w : World) :
  isCrashing (flight w) = true ->
  flight (animate_rev rev fr w) = flight w /\
  animate_rev rev fr w =
    match aircraftModel (flight w) with
    | Some a => updateView (frameTime fr) a (afterEffects rev fr w)
    | None => updateHudOnly (afterEffects rev fr w)
    end /\
  particles (animate_rev rev fr w) =
    particles (updateEffects rev fr (frameTime fr)
                 (set_host (snd (Clock_getDelta (d_animate fr) (host w))) w)) /\
  (forall a, aircraftModel (flight w) = Some a ->
     hud_speed (view (animate_rev rev fr w)) = V3.length (playerVelocity (flight w)) /\
     camera_lookAt (view (animate_rev rev fr w)) = Some (position a) /\
     fog_near (view (animate_rev rev fr w))
       = fog_near (view (updateView (frameTime fr) a w)) /\
     fog_far (view (animate_rev rev fr w))
       = fog_far (view (updateView (frameTime fr) a w)) /\
     camera_position (view (animate_rev rev fr w))
       = camera_position (view (updateView (frameTime fr) a w))).
Proof.
  intros Hc.
  pose proof (afterEffects_frame rev fr w) as (Hf & Has & Hk & Htc & Hcp & Hv & _).
  assert (animate_rev rev fr w =
    match aircraftModel (flight w) with
    | Some a => updateView (frameTime fr) a (afterEffects rev fr w)
    | None => updateHudOnly (afterEffects rev fr w)
    end) as Heq.
  { rewrite animate_rev_unfold. cbv zeta. rewrite Hc. cbn [negb].
    rewrite Hf. fold (frameTime fr).
    destruct (aircraftModel (flight w)); reflexivity. }
  split; [| split; [exact Heq | split]].
  - rewrite Heq. destruct (aircraftModel (flight w)); exact Hf.
  - rewrite Heq. destruct (aircraftModel (flight w)); reflexivity.
  - intros a E. rewrite Heq, E.
    unfold updateView. cbn. rewrite ?Hf, ?Has, ?Hcp, ?Hv. repeat split; reflexivity.
Qed.

(** ** Yaw *)

Lemma Rpower_unit_interval (b e : R) : 0 < b <= 1 -> 0 <= e -> 0 < Rpower b e <= 1.
Proof.
  intros Hb He. split.
  - unfold Rpower. apply exp_pos.
  - replace 1 with (Rpower 1 e).
    + apply Rle_Rpower_l; [exact He | lra].
    + unfold Rpower. rewrite ln_1, Rmult_0_r. apply exp_0.
Qed.

Lemma frameTime_range (fr : Frame) : 0 <= d_animate fr -> 0 <= frameTime fr <= 0.1.
Proof.
  intros H. unfold frameTime. split.
  - apply Rmin_glb; lra.
  - apply Rmin_r.
Qed.

Lemma angularUpdate_yaw (cp : ControlParams) (inp : ControlInput) (dt : R) (angVel : Vector3) :
  yawInput inp = 0 ->
  v_y (angularUpdate cp inp dt angVel)
    = v_y angVel * (1 - angularAdjustFactor cp * dt)
        * Math_pow (angularDamping cp) (dt * 60).
Proof.
  intros Hy. unfold angularUpdate, V3.multiplyScalar. cbn [v_y]. rewrite Hy. ring.
Qed.

Lemma controlsOf_yaw rev w : yawInput (controlsOf rev w) = 0.
Proof.
  destruct rev; unfold controlsOf, readControls, readControls_kbd;
    [destruct (isTouchDevice (assets w)) |]; reflexivity.
Qed.

Lemma physics_core rev fr dt w :
  assets (physics rev fr dt w) = assets w /\ keys (physics rev fr dt w) = keys w /\
  touchControls (physics rev fr dt w) = touchControls w /\
  controlParams (physics rev fr dt w) = controlParams w.
Proof.
  unfold physics.
  pose proof (integrate_frame rev dt w) as (_&Ha&Hk&Ht&Hc&_).
  pose proof (collisionCheck_core (d_trigger fr) (integrate rev dt w)) as (Hc'&Ha'&Hk'&Ht'&_).
  repeat split; congruence.
Qed.

Lemma afterPhysics_core rev fr w :
  assets (afterPhysics rev fr w) = assets w /\ keys (afterPhysics rev fr w) = keys w /\
  touchControls (afterPhysics rev fr w) = touchControls w /\
  controlParams (afterPhysics rev fr w) = controlParams w.
Proof.
  unfold afterPhysics.
  pose proof (afterEffects_frame rev fr w) as (_&Ha&Hk&Ht&Hc&_).
  destruct (isCrashing (flight w)); [auto |].
  pose proof (physics_core rev fr (frameTime fr) (afterEffects rev fr w)) as (Ha'&Hk'&Ht'&Hc').
  repeat split; congruence.
Qed.

Lemma step_core rev e w :
  assets (step rev e w) = assets w /\ controlParams (step rev e w) = controlParams w.
Proof.
  by_event e; cbn [step];
    try (progress unfold onJoystick; destruct (joysticksCreated (assets w)));
    auto.
  - pose proof (animate_rev_core rev fr w) as (_&_&_&Ha&_&_&Hc).
    pose proof (afterPhysics_core rev fr w) as (Ha'&_&_&Hc'). split; congruence.
  - destruct (decide (tid ∈ timers (host w))); [| auto].
    match goal with |- context [resetSimulation ?w0] =>
      pose proof (resetSimulation_core w0) as (Hcp&Ha&_) end.
    auto.
Qed.

(** C10: the yaw input of a frame is 0 whatever the keys (q and e included)
    and the touch state; the right joystick handlers force the touch yaw to
    0 and no handler ever makes it non-zero; so the target yaw rate is 0 and
    the yaw component of the angular velocity is only multiplied by the
    approach factor [1 - angularAdjustFactor * dt] and the damping factor
    [angularDamping ^ (60 dt)]: over a frame, ground contact and crash
    included, by a factor of absolute value at most 1, and by one between 0
    and 1 when [angularAdjustFactor <= 10] (no overshoot at [dt = 0.1]). *)
Theorem yaw_never_driven (rev : Revision) :
  (forall w : World, yawInput (controlsOf rev w) = 0) /\
  (forall (d a : R) (t : TouchControls), t_yaw (joystickRight_move d a t) = 0) /\
  (forall t : TouchControls, t_yaw (joystickRight_end t) = 0) /\
  (forall (e : Event) (w : World),
      t_yaw (touchControls w) = 0 -> t_yaw (touchControls (step rev e w)) = 0) /\
  (forall (w : World) (dt : R) (angVel : Vector3),
      v_y (angularUpdate (controlParams w) (controlsOf rev w) dt angVel)
        = v_y angVel * (1 - angularAdjustFactor (controlParams w) * dt)
            * Math_pow (angularDamping (controlParams w)) (dt * 60)) /\
  (forall (fr : Frame) (w : World),
      0 <= d_animate fr ->
      0 <= angularAdjustFactor (controlParams w) <= 20 ->
      0 < angularDamping (controlParams w) <= 1 ->
      exists c : R, -1 <= c <= 1 /\
        (angularAdjustFactor (controlParams w) <= 10 -> 0 <= c) /\
        v_y (playerAngularVelocity (flight (animate_rev rev fr w)))
          = c * v_y (playerAngularVelocity (flight w))).
Proof.
  split; [apply controlsOf_yaw |].
  split; [reflexivity |].
  split; [reflexivity |].
  split; [| split].
  - intros e w H. by_event e; cbn [step]; try exact H;
      try (unfold onJoystick; destruct (joysticksCreated (assets w)); [cbn | ]; exact H);
      try (unfold onJoystick; destruct (joysticksCreated (assets w)); [reflexivity | exact H]).
    + pose proof (animate_rev_core rev fr w) as (_&_&_&_&_&Ht&_).
      pose proof (afterPhysics_core rev fr w) as (_&_&Ht'&_). congruence.
    + destruct (decide (tid ∈ timers (host w))); [| exact H].
      match goal with |- context [resetSimulation ?w0] =>
        pose proof (resetSimulation_core w0) as (_&_&_&Ht&_) end.
      rewrite Ht. exact H.
  - intros w dt angVel. apply angularUpdate_yaw, controlsOf_yaw.
  - intros fr w Hd Hk Hdamp.
    pose proof (animate_rev_core rev fr w) as (Hf&_). rewrite Hf.
    unfold afterPhysics.
    pose proof (afterEffects_frame rev fr w) as (Hf1&Has&Hks&Htc&Hcp&_).
    destruct (isCrashing (flight w)).
    { exists 1. rewrite Hf1. split; [lra |]. split; [intros; lra | lra]. }
    unfold physics. set (w1 := afterEffects rev fr w) in *.
    pose proof (collisionCheck_core (d_trigger fr) (integrate rev (frameTime fr) w1))
      as (_&_&_&_&_&(c & Hc & Hcol)).
    rewrite Hcol. cbn [V3.multiplyScalar v_y].
    destruct (aircraftModel (flight w1)) as [a |] eqn:E.
    + rewrite (integrate_flight rev (frameTime fr) w1 a E). cbn [playerAngularVelocity].
      rewrite angularUpdate_yaw by apply controlsOf_yaw.
      rewrite Hcp, Hf1.
      pose proof (frameTime_range fr Hd) as Hdt.
      set (k := angularAdjustFactor (controlParams w)) in *.
      set (dt := frameTime fr) in *.
      assert (-1 <= 1 - k * dt <= 1) as Hfac by nra.
      assert (0 < Math_pow (angularDamping (controlParams w)) (dt * 60) <= 1) as Hp
        by (apply Rpower_unit_interval; lra).
      set (p := Math_pow (angularDamping (controlParams w)) (dt * 60)) in *.
      exists ((1 - k * dt) * p * c).
      assert (-1 <= (1 - k * dt) * p <= 1) as Hfp by nra.
      split; [nra |]. split; [| ring].
      intros Hk10. assert (0 <= 1 - k * dt) as Hge by nra.
      apply Rmult_le_pos; [apply Rmult_le_pos |]; lra.
    + unfold integrate. rewrite E, Hf1. exists c.
      split; [lra |]. split; [intros; lra | ring].
Qed.

(** ** The crash state machine, turn by turn *)

Lemma occurrences_app msg l1 l2 :
  occurrences msg (l1 ++ l2) = (occurrences msg l1 + occurrences msg l2)%nat.
Proof. unfold occurrences. rewrite filter_app, length_app. reflexivity. Qed.

Lemma crashMessages_crash w : occurrences "CRASH DETECTED!" (crashMessages w) = 1%nat.
Proof. unfold crashMessages. destruct (explosionReady w); reflexivity. Qed.

Lemma crashMessages_trigger w :
  occurrences "--- Triggering Crash Explosion ---" (crashMessages w)
    = if explosionReady w then 1%nat else 0%nat.
Proof. unfold crashMessages. destruct (explosionReady w); reflexivity. Qed.

Lemma explosionReady_ext w w' :
  assets w' = assets w ->
  (is_Some (crashExplosionSystem (particles w'))
     <-> is_Some (crashExplosionSystem (particles w))) ->
  explosionReady w' = explosionReady w.
Proof.
  intros Ha Hs. unfold explosionReady. rewrite Ha. f_equal.
  apply bool_decide_ext. exact Hs.
Qed.

Lemma effectsFrame_ready w w' : effectsFrame w w' -> explosionReady w' = explosionReady w.
Proof. intros (_&Ha&_&_&_&_&_&Hs&_). apply explosionReady_ext; assumption. Qed.

Lemma enterCrash_enters d a w : entersCrash w (enterCrash d a w).
Proof.
  pose proof (enterCrash_spec d a w) as (Hf & Hc & Hn & Ht & _).
  unfold entersCrash. rewrite Hf.
  split; [reflexivity |]. split; [exact Hc |]. split; [exact Hn |].
  split; [reflexivity |].
  split; [rewrite Ht; apply elem_of_union_l, elem_of_singleton; reflexivity |].
  repeat split.
Qed.

Lemma enterCrash_ready d a w : explosionReady (enterCrash d a w) = explosionReady w.
Proof.
  pose proof (enterCrash_spec d a w) as (_&_&_&_&Ha&_&_&_&_&Hp).
  apply explosionReady_ext; [exact Ha |]. rewrite Hp.
  match goal with |- context [triggerCrashExplosion ?d ?p ?w1] =>
    pose proof (triggerCrashExplosion_frame d p w1) as (_&_&_&_&_&_&_&_&Hs&_) end.
  exact Hs.
Qed.

Lemma collisionCheck_crash d w :
  isCrashing (flight w) = false ->
  explosionReady (collisionCheck d w) = explosionReady w /\
  (staysFlying w (collisionCheck d w) \/ entersCrash w (collisionCheck d w)).
Proof.
  intros Hfly.
  destruct (collisionCheck_cases d w) as [-> | [(a & g & E & ->) | (a & E & _ & ->)]].
  - split; [reflexivity |]. left. repeat split; auto.
  - pose proof (groundContact_frame g a w) as (Hh&Ha&_&_&_&Hp&_&Hc&Ht&_).
    split.
    + apply explosionReady_ext; [exact Ha | rewrite Hp; tauto].
    + left. unfold staysFlying. rewrite Hh, Hc, Ht. auto.
  - split; [apply enterCrash_ready | right; apply enterCrash_enters].
Qed.

Lemma integrate_ready rev dt w : explosionReady (integrate rev dt w) = explosionReady w.
Proof.
  pose proof (integrate_frame rev dt w) as (_&Ha&_&_&_&Hp&_).
  apply explosionReady_ext; [exact Ha | rewrite Hp; tauto].
Qed.

Lemma crashMessages_ext w w' : explosionReady w' = explosionReady w ->
  crashMessages w' = crashMessages w.
Proof. intros H. unfold crashMessages. rewrite H. reflexivity. Qed.

Lemma animate_while_crashing rev fr w :
  isCrashing (flight w) = true ->
  explosionReady (animate_rev rev fr w) = explosionReady w /\
  staysCrashing w (animate_rev rev fr w).
Proof.
  intros Hc.
  pose proof (animate_rev_core rev fr w) as (Hf&Hh&Hp&Ha&_).
  unfold afterPhysics in *. rewrite Hc in *.
  pose proof (afterEffects_frame rev fr w) as HF.
  pose proof (effectsFrame_ready _ _ HF) as Hr.
  destruct HF as (Hf1&Ha1&_&_&_&_&(Hco&Hti&Hne&_)&Hs&Hi).
  split.
  - rewrite <- Hr. apply explosionReady_ext; [exact Ha | rewrite Hp; tauto].
  - unfold staysCrashing. rewrite Hf, Hh, Hp. auto.
Qed.

Lemma animate_while_flying rev fr w :
  isCrashing (flight w) = false ->
  explosionReady (animate_rev rev fr w) = explosionReady w /\
  (staysFlying w (animate_rev rev fr w) \/ entersCrash w (animate_rev rev fr w)).
Proof.
  intros Hfly.
  pose proof (animate_rev_core rev fr w) as (Hf&Hh&Hp&Ha&_).
  unfold afterPhysics in *. rewrite Hfly in *. unfold physics in *.
  pose proof (afterEffects_frame rev fr w) as HF.
  pose proof (effectsFrame_ready _ _ HF) as Hr.
  destruct HF as (Hf1&Ha1&_&_&_&_&(Hco&Hti&Hne&_)&Hs&Hi).
  set (w1 := afterEffects rev fr w) in *.
  pose proof (integrate_frame rev (frameTime fr) w1) as (Hh2&Ha2&_&_&_&Hp2&_&Hc2&Ht2&_).
  pose proof (integrate_ready rev (frameTime fr) w1) as Hr2.
  set (w2 := integrate rev (frameTime fr) w1) in *.
  assert (isCrashing (flight w2) = false) as Hfly2 by (rewrite Hc2, Hf1; exact Hfly).
  destruct (collisionCheck_crash (d_trigger fr) w2 Hfly2) as [Hr3 Hcases].
  set (w3 := collisionCheck (d_trigger fr) w2) in *.
  assert (explosionReady w2 = explosionReady w) as Hrw by congruence.
  split.
  - rewrite <- Hrw, <- Hr3. apply explosionReady_ext; [exact Ha | rewrite Hp; tauto].
  - destruct Hcases as [(A&B&C&D&E) | (A&B&C&D&E&F&G&H)]; [left | right].
    + unfold staysFlying. rewrite Hf, Hh, A, B, C, D, E, Hh2, Hco, Hne, Hti, Ht2, Hf1. auto.
    + unfold entersCrash.
      rewrite Hf, Hh, A, B, C, D, F, G, H, Hh2, Hco, Hne, (crashMessages_ext _ _ Hrw).
      rewrite Hh2, Hne in E. auto 10.
Qed.

Lemma input_step_same rev e w :
  ~ isTimer e -> (forall fr, e <> AnimationFrame fr) ->
  flight (step rev e w) = flight w /\ host (step rev e w) = host w /\
  particles (step rev e w) = particles w /\ assets (step rev e w) = assets w.
Proof.
  intros Ht Hf.
  by_event e; cbn [step];
    try (progress unfold onJoystick; destruct (joysticksCreated (assets w))); auto.
  - destruct (Hf fr). reflexivity.
  - destruct Ht. exact I.
Qed.

Lemma step_while_crashing rev e w :
  ~ isTimer e -> isCrashing (flight w) = true ->
  explosionReady (step rev e w) = explosionReady w /\ staysCrashing w (step rev e w).
Proof.
  intros Ht Hc.
  by_event e;
    try (pose proof (input_step_same rev _ w Ht ltac:(discriminate)) as (Hf&Hh&Hp&Ha);
         split;
         [ apply explosionReady_ext; [exact Ha | rewrite Hp; tauto]
         | unfold staysCrashing; rewrite Hf, Hh, Hp; auto ]).
  apply animate_while_crashing. exact Hc.
Qed.

Lemma step_while_flying rev e w :
  ~ isTimer e -> isCrashing (flight w) = false ->
  explosionReady (step rev e w) = explosionReady w /\
  (staysFlying w (step rev e w) \/ entersCrash w (step rev e w)).
Proof.
  intros Ht Hc.
  by_event e;
    try (pose proof (input_step_same rev _ w Ht ltac:(discriminate)) as (Hf&Hh&Hp&Ha);
         split;
         [ apply explosionReady_ext; [exact Ha | rewrite Hp; tauto]
         | left; unfold staysFlying; rewrite Hf, Hh; auto ]).
  apply animate_while_flying. exact Hc.
Qed.

Lemma noReset_snoc es e : noReset (es ++ [e]) -> noReset es /\ ~ isTimer e.
Proof.
  unfold noReset. rewrite Forall_app, Forall_singleton. intros [H1 H2].
  split; [exact H1 |]. destruct e; cbn in *; tauto.
Qed.

Lemma run_crash rev es w :
  noReset es ->
  explosionReady (run rev es w) = explosionReady w /\
  (isCrashing (flight w) = true ->
     isCrashing (flight (run rev es w)) = true /\ ranSince w (run rev es w) 0) /\
  (isCrashing (flight w) = false ->
     ranSince w (run rev es w) (if isCrashing (flight (run rev es w)) then 1 else 0)).
Proof.
  induction es as [| e es IH] using rev_ind; intros Hn.
  - split; [reflexivity |]. cbn [run fold_left]. split.
    + intros H. split; [exact H |]. unfold ranSince. cbn.
      destruct (explosionReady w); auto.
    + intros ->. unfold ranSince. cbn. destruct (explosionReady w); auto.
  - apply noReset_snoc in Hn as [Hn He]. specialize (IH Hn) as (Hr & Hcr & Hfl).
    rewrite run_snoc. set (w1 := run rev es w) in *.
    assert (forall n, ranSince w w1 n -> staysCrashing w1 (step rev e w1) ->
                      ranSince w (step rev e w1) n) as Hkeep.
    { intros n (A&B&C) (_&Hc&Hnx&_). unfold ranSince, crashLog, triggerLog in *.
      rewrite Hc, Hnx. auto. }
    assert (forall n, ranSince w w1 n -> staysFlying w1 (step rev e w1) ->
                      ranSince w (step rev e w1) n) as Hkeep'.
    { intros n (A&B&C) (_&Hc&Hnx&_). unfold ranSince, crashLog, triggerLog in *.
      rewrite Hc, Hnx. auto. }
    destruct (isCrashing (flight w1)) eqn:Hc1.
    + destruct (step_while_crashing rev e w1 He Hc1) as [Hr1 Hs].
      assert (isCrashing (flight (step rev e w1)) = true) as Hc2
        by (destruct Hs as (-> & _); exact Hc1).
      split; [congruence |]. split.
      * intros H. destruct (Hcr H) as [_ Hz]. split; [exact Hc2 |]. apply Hkeep; assumption.
      * intros H. rewrite Hc2. apply Hkeep; auto.
    + destruct (step_while_flying rev e w1 He Hc1) as [Hr1 Hs].
      split; [congruence |]. split.
      * intros H. destruct (Hcr H) as [Hx _]. congruence.
      * intros H. specialize (Hfl H).
        destruct Hs as [Hs | Hs].
        -- destruct Hs as (Hs0 & Hs'). rewrite Hs0. apply Hkeep'; [exact Hfl |].
           split; [exact Hs0 | exact Hs'].
        -- destruct Hs as (Hs0 & Hco & Hnx & _). rewrite Hs0.
           destruct Hfl as (A&B&C). unfold ranSince, crashLog, triggerLog in *.
           rewrite Hco, Hnx, !occurrences_app, crashMessages_crash, crashMessages_trigger.
           rewrite A, B, C, Hr. cbn. destruct (explosionReady w); repeat split; lia.
Qed.

(** ** Idle decay *)

Lemma vec3_eq (a b : Vector3) :
  v_x a = v_x b -> v_y a = v_y b -> v_z a = v_z b -> a = b.
Proof. destruct a, b. cbn. intros -> -> ->. reflexivity. Qed.

Lemma applyForces_idle cp inp dt q v :
  thrustInput inp = 0 -> brakeInput inp = false ->
  applyForces cp inp dt q v = V3.multiplyScalar v (1 - linearDragFactor cp * dt).
Proof.
  intros Ht Hb. unfold applyForces. rewrite Ht, Hb. cbn [andb].
  apply vec3_eq; cbn; ring.
Qed.

Lemma idleDecay_in_band cp inp v :
  thrustInput inp < 0.1 -> brakeInput inp = false ->
  0.01 < V3.lengthSq v < minSpeed cp * minSpeed cp ->
  idleDecay cp inp v =
    if decide (V3.lengthSq (V3.multiplyScalar v 0.9) < 0.01) then V3.zero
    else V3.multiplyScalar v 0.9.
Proof.
  intros Ht Hb [Hlo Hhi]. unfold idleDecay.
  rewrite Hb, (bool_decide_eq_true_2 _ Ht). cbn [negb andb].
  rewrite (bool_decide_eq_true_2 _ Hhi).
  rewrite bool_decide_eq_true_2 by lra. reflexivity.
Qed.

Lemma idleDecay_creep cp inp v :
  V3.lengthSq v <= 0.01 -> idleDecay cp inp v = v.
Proof.
  intros H. unfold idleDecay.
  rewrite (bool_decide_eq_false_2 (V3.lengthSq v > 0.01)) by lra.
  rewrite andb_false_r. destruct (_ && _); reflexivity.
Qed.

Lemma idleDecay_kbd_below cp v :
  V3.lengthSq v < minSpeed cp * minSpeed cp ->
  idleDecay_kbd cp false v =
    if decide (V3.lengthSq (V3.multiplyScalar v 0.9) < 0.01) then V3.zero
    else V3.multiplyScalar v 0.9.
Proof.
  intros H. unfold idleDecay_kbd. rewrite (bool_decide_eq_true_2 _ H). reflexivity.
Qed.

Lemma height_le_max (x z : R) : getProceduralTerrainHeight x z <= 540.
Proof.
  unfold getProceduralTerrainHeight. cbn [THREE.defined negb].
  eapply Rle_trans; [apply clamp_le_hi |];
    unfold VOLCANO_HEIGHT, TERRAIN_NOISE_HEIGHT; lra.
Qed.

Lemma collisionCheck_clear d w :
  (terrainMesh (assets w) = false \/
   forall a, aircraftModel (flight w) = Some a -> 541.5 <= v_y (position a)) ->
  collisionCheck d w = w.
Proof.
  intros H. unfold collisionCheck.
  destruct (aircraftModel (flight w)) as [a |]; [| reflexivity].
  destruct H as [-> | H]; [reflexivity |].
  destruct (terrainMesh (assets w)); [| reflexivity].
  cbv zeta. rewrite decide_False; [reflexivity |].
  specialize (H a eq_refl).
  pose proof (height_le_max (v_x (position a)) (v_z (position a))) as Hh.
  unfold AIRCRAFT_GROUND_BUFFER, WATER_LEVEL.
  assert (Rmax (getProceduralTerrainHeight (v_x (position a)) (v_z (position a))) 5.0 <= 540)
    by (apply Rmax_lub; lra).
  lra.
Qed.

Lemma worldWrap_y p : v_y (worldWrap p) = v_y p.
Proof.
  destruct p as [x y z]. unfold worldWrap. cbn [v_x v_y v_z].
  repeat (case_decide; cbn [v_x v_y v_z V3.set_x V3.set_z]); reflexivity.
Qed.

Lemma controlsOf_ext rev w w' :
  assets w' = assets w -> keys w' = keys w -> touchControls w' = touchControls w ->
  controlsOf rev w' = controlsOf rev w.
Proof.
  intros Ha Hk Ht. unfold controlsOf, readControls, readControls_kbd. rewrite Ha, Hk, Ht.
  reflexivity.
Qed.

Lemma kbd_thrust_key w :
  thrustInput (readControls_kbd w) = 0 -> keyDown (keys w) " " = false.
Proof.
  unfold readControls_kbd. cbn. destruct (keyDown (keys w) " "); [lra | reflexivity].
Qed.

Lemma idle_tick_velocity rev fr w a :
  idleScenario rev w a -> 0 <= d_animate fr ->
  playerVelocity (flight (animate_rev rev fr w))
    = vec3 (0.3 * (1 - 0.5 * frameTime fr) * 0.9) 0 0.
Proof.
  intros (Hcp & Ea & Hfly & Hv & Hth & Hbr & Hclear) Hd.
  pose proof (frameTime_range fr Hd) as Hdt.
  pose proof (animate_rev_core rev fr w) as (Hf&_). rewrite Hf.
  unfold afterPhysics. rewrite Hfly. unfold physics.
  pose proof (afterEffects_frame rev fr w) as (Hf1&Has&Hks&Htc&Hcp1&_).
  set (w1 := afterEffects rev fr w) in *.
  assert (aircraftModel (flight w1) = Some a) as E1 by (rewrite Hf1; exact Ea).
  pose proof (integrate_flight rev (frameTime fr) w1 a E1) as Hint. cbv zeta in Hint.
  rewrite (controlsOf_ext rev w w1 Has Hks Htc) in Hint.
  rewrite applyForces_idle in Hint by assumption.
  rewrite Hcp1, Hcp, Hf1, Hv, Hks in Hint.
  set (dt := frameTime fr) in *. clearbody dt.
  assert (V3.multiplyScalar (vec3 0.3 0 0) (1 - linearDragFactor defaultControlParams * dt)
          = vec3 (0.3 * (1 - 0.5 * dt)) 0 0) as Hdrag
    by (apply vec3_eq; cbn -[Q2R]; lra).
  rewrite Hdrag in Hint.
  assert (V3.lengthSq (vec3 (0.3 * (1 - 0.5 * dt)) 0 0)
          = 0.09 * ((1 - 0.5 * dt) * (1 - 0.5 * dt))) as Hsq
    by (unfold V3.lengthSq; cbn -[Q2R]; nra).
  assert (0.9025 <= (1 - 0.5 * dt) * (1 - 0.5 * dt) <= 1) as Hband by nra.
  rewrite speedCap_within in Hint.
  2:{ rewrite Hsq. unfold currentMaxSpeed. cbn.
      destruct (afterburnerInput (controlsOf rev w)); nra. }
  assert (V3.multiplyScalar (vec3 (0.3 * (1 - 0.5 * dt)) 0 0) 0.9
          = vec3 (0.3 * (1 - 0.5 * dt) * 0.9) 0 0) as Hdec
    by (apply vec3_eq; cbn -[Q2R]; lra).
  assert (V3.lengthSq (vec3 (0.3 * (1 - 0.5 * dt) * 0.9) 0 0)
          = 0.0729 * ((1 - 0.5 * dt) * (1 - 0.5 * dt))) as Hsq2
    by (unfold V3.lengthSq; cbn -[Q2R]; nra).
  assert (match rev with
          | TouchControlsRev =>
              idleDecay defaultControlParams (controlsOf rev w) (vec3 (0.3 * (1 - 0.5 * dt)) 0 0)
          | KeyboardOnlyRev =>
              idleDecay_kbd defaultControlParams (keyDown (keys w) " ")
                (vec3 (0.3 * (1 - 0.5 * dt)) 0 0)
          end = vec3 (0.3 * (1 - 0.5 * dt) * 0.9) 0 0) as Hidle.
  { destruct rev.
    - rewrite idleDecay_in_band; [| lra | assumption | rewrite Hsq; cbn; nra].
      rewrite Hdec, decide_False by (rewrite Hsq2; nra). reflexivity.
    - rewrite (kbd_thrust_key w Hth).
      rewrite idleDecay_kbd_below by (rewrite Hsq; cbn; nra).
      rewrite Hdec, decide_False by (rewrite Hsq2; nra). reflexivity. }
  rewrite Hidle in Hint.
  rewrite collisionCheck_clear.
  - rewrite Hint. reflexivity.
  - pose proof (integrate_frame rev dt w1) as (_&Ha2&_).
    destruct Hclear as [Hno | Hhigh]; [left; congruence | right].
    intros a' Ea'. rewrite Hint in Ea'. cbn in Ea'. injection Ea' as <-.
    cbn [position]. rewrite worldWrap_y. cbn. lra.
Qed.

(** ** Ring buffer writes *)

Lemma slot_eq (a b : Points) (i j : nat) :
  slot a i = slot b j ->
  positions a !! i = positions b !! j /\ velocities a !! i = velocities b !! j /\
  startTimes a !! i = startTimes b !! j /\ alphas a !! i = alphas b !! j /\
  sizes a !! i = sizes b !! j.
Proof. unfold slot. intros [= -> -> -> -> ->]. auto. Qed.

Lemma mod_wrap (a m : nat) :
  (0 < m)%nat -> (a < 2 * m)%nat ->
  (a mod m = if decide (a < m)%nat then a else a - m)%nat.
Proof.
  intros Hm Ha. destruct (decide (a < m)%nat) as [Hlt | Hge].
  - apply Nat.mod_small. exact Hlt.
  - replace a with ((a - m) + 1 * m)%nat at 1 by lia.
    rewrite Nat.Div0.mod_add. apply Nat.mod_small. lia.
Qed.

Lemma ring_index_lt (idx k m : nat) : (0 < m)%nat -> ((idx + k) mod m < m)%nat.
Proof. intros. apply Nat.mod_upper_bound. lia. Qed.

Lemma ring_index_inj (idx k k' m : nat) :
  (idx < m)%nat -> (k < m)%nat -> (k' < m)%nat ->
  ((idx + k) mod m = (idx + k') mod m)%nat -> k = k'.
Proof.
  intros Hi Hk Hk'.
  rewrite !mod_wrap by lia.
  repeat case_decide; lia.
Qed.

Lemma createPoints_capacity n lifetime : hasCapacity n (createPoints n true lifetime).
Proof. unfold hasCapacity, createPoints. cbn. rewrite !length_replicate. auto. Qed.

Lemma explosionEmit_writes cp pos T sys idx h :
  hasCapacity MAX_EXPLOSION_PARTICLES sys -> (idx < MAX_EXPLOSION_PARTICLES)%nat ->
  let st' := explosionEmit cp pos T (sys, idx, h) in
  hasCapacity MAX_EXPLOSION_PARTICLES (fst (fst st')) /\
  snd (fst st') = ((idx + 1) mod MAX_EXPLOSION_PARTICLES)%nat /\
  startTimes (fst (fst st')) !! idx = Some T /\
  alphas (fst (fst st')) !! idx = Some 1 /\
  positions (fst (fst st')) !! idx = Some pos /\
  (forall i, i <> idx -> slot (fst (fst st')) i = slot sys i).
Proof.
  intros (Hp & Hv & Hs & Ha & Hz) Hi. unfold explosionEmit, Math_random. cbn.
  unfold hasCapacity. cbn.
  rewrite !length_insert.
  repeat split; auto.
  - apply list_lookup_insert_eq. lia.
  - rewrite list_lookup_insert_eq by lia. f_equal. lra.
  - apply list_lookup_insert_eq. lia.
  - intros i Hne. unfold slot. cbn.
    rewrite !list_lookup_insert_ne by auto. reflexivity.
Qed.

Lemma explosion_burst cp pos T n sys idx h :
  (n <= MAX_EXPLOSION_PARTICLES)%nat ->
  hasCapacity MAX_EXPLOSION_PARTICLES sys -> (idx < MAX_EXPLOSION_PARTICLES)%nat ->
  let st' := for_loop n (fun _ => explosionEmit cp pos T) (sys, idx, h) in
  hasCapacity MAX_EXPLOSION_PARTICLES (fst (fst st')) /\
  snd (fst st') = ((idx + n) mod MAX_EXPLOSION_PARTICLES)%nat /\
  (forall k, (k < n)%nat ->
     startTimes (fst (fst st')) !! ((idx + k) mod MAX_EXPLOSION_PARTICLES)%nat = Some T /\
     alphas (fst (fst st')) !! ((idx + k) mod MAX_EXPLOSION_PARTICLES)%nat = Some 1 /\
     positions (fst (fst st')) !! ((idx + k) mod MAX_EXPLOSION_PARTICLES)%nat = Some pos) /\
  (forall i, (forall k, (k < n)%nat -> i <> ((idx + k) mod MAX_EXPLOSION_PARTICLES)%nat) ->
     slot (fst (fst st')) i = slot sys i).
Proof.
  intros Hn Hcap Hidx.
  assert (0 < MAX_EXPLOSION_PARTICLES)%nat as Hpos by lia.
  induction n as [| n IH]; cbv zeta.
  - rewrite for_loop_0. cbn [fst snd]. rewrite Nat.add_0_r, Nat.mod_small by exact Hidx.
    split; [exact Hcap |]. split; [reflexivity |]. split; [intros k Hk; lia | reflexivity].
  - rewrite for_loop_S.
    specialize (IH ltac:(lia)). cbv zeta in IH.
    destruct (for_loop n (fun _ => explosionEmit cp pos T) (sys, idx, h)) as [[sys1 idx1] h1].
    cbn [fst snd] in IH. destruct IH as (Hcap1 & Hidx1 & Hw & Ho).
    assert (idx1 < MAX_EXPLOSION_PARTICLES)%nat as Hlt1
      by (rewrite Hidx1; apply ring_index_lt; exact Hpos).
    pose proof (explosionEmit_writes cp pos T sys1 idx1 h1 Hcap1 Hlt1)
      as (Hcap2 & Hidx2 & Hs2 & Ha2 & Hp2 & Ho2).
    cbv zeta in *.
    set (st2 := explosionEmit cp pos T (sys1, idx1, h1)) in *. clearbody st2.
    split; [exact Hcap2 |]. split; [| split].
    + rewrite Hidx2, Hidx1. rewrite Nat.Div0.add_mod_idemp_l. f_equal. lia.
    + intros k Hk. destruct (decide (k = n)) as [-> | Hne].
      * rewrite <- Hidx1. auto.
      * assert (((idx + k) mod MAX_EXPLOSION_PARTICLES)%nat <> idx1) as Hd.
        { rewrite Hidx1. intros Heq. apply ring_index_inj in Heq; lia. }
        destruct (slot_eq _ _ _ _ (Ho2 _ Hd)) as (Hpp & _ & Hss & Haa & _).
        rewrite Hss, Haa, Hpp. apply Hw. lia.
    + intros i Hi. rewrite Ho2.
      * apply Ho. intros k Hk. apply Hi. lia.
      * rewrite Hidx1. apply Hi. lia.
Qed.

Lemma Math_ceil_IZR (z : Z) : Math_ceil (IZR z) = z.
Proof.
  unfold Math_ceil.
  assert (up (- IZR z) = (1 - z)%Z) as ->; [| lia].
  symmetry. apply tech_up.
  - rewrite minus_IZR. lra.
  - rewrite minus_IZR. lra.
Qed.

Lemma default_burst_count :
  loopCount (Rmin (explosionParticleCount defaultControlParams) (INR MAX_EXPLOSION_PARTICLES))
    = 2400%nat.
Proof.
  unfold loopCount. cbn [explosionParticleCount defaultControlParams].
  rewrite INR_IZR_INZ.
  replace (Z.of_nat MAX_EXPLOSION_PARTICLES) with 2500%Z by reflexivity.
  rewrite Rmin_left by lra.
  rewrite Math_ceil_IZR. reflexivity.
Qed.

Lemma burst_count (c : R) :
  c = 2400 -> loopCount (Rmin c (INR MAX_EXPLOSION_PARTICLES)) = 2400%nat.
Proof.
  intros ->. unfold loopCount.
  rewrite INR_IZR_INZ.
  replace (Z.of_nat MAX_EXPLOSION_PARTICLES) with 2500%Z by reflexivity.
  rewrite Rmin_left by lra.
  rewrite Math_ceil_IZR. reflexivity.
Qed.

Lemma burst_fits : (2400 <= MAX_EXPLOSION_PARTICLES)%nat.
Proof. apply Nat.leb_le. vm_compute. reflexivity. Qed.

Lemma untouched_count (m n : nat) (written : list nat) :
  NoDup written -> length written = n ->
  (forall i, i ∈ written -> (i < m)%nat) ->
  length (filter (fun i => i ∉ written) (seq 0 m)) = (m - n)%nat.
Proof.
  intros Hnd Hlen Hin.
  pose proof (filter_app_complement (fun i => i ∈ written) (seq 0 m)) as Hperm.
  apply Permutation_length in Hperm. rewrite length_app, length_seq in Hperm.
  assert (filter (fun i => i ∈ written) (seq 0 m) ≡ₚ written) as Hw.
  { apply NoDup_Permutation.
    - apply NoDup_filter, NoDup_seq.
    - exact Hnd.
    - intros i. rewrite list_elem_of_filter, elem_of_seq.
      split; [tauto |]. intros Hi. split; [exact Hi |]. specialize (Hin i Hi). lia. }
  apply Permutation_length in Hw. lia.
Qed.

(** C6: with [explosionParticleCount = 2400] and a buffer of
    [MAX_EXPLOSION_PARTICLES = 2500] slots, the trigger writes the 2400
    pairwise distinct slots [index, index + 1, ...] (modulo 2500): each
    receives the trigger time as start timestamp, alpha 1 and the crash
    position; the other 100 slots keep all five attribute values. *)
Theorem explosion_burst_slots (d : R) (pos : Vector3) (w : World) (sys : Points) :
  crashExplosionSystem (particles w) = Some sys ->
  particleTexture (assets w) = true ->
  explosionParticleCount (controlParams w) = 2400 ->
  hasCapacity MAX_EXPLOSION_PARTICLES sys ->
  (currentExplosionIndex (particles w) < MAX_EXPLOSION_PARTICLES)%nat ->
  let idx := currentExplosionIndex (particles w) in
  let triggerTime := elapsedTime (host w) + d in
  let written :=
    (fun k => ((idx + k) mod MAX_EXPLOSION_PARTICLES)%nat) <$> seq 0 2400 in
  exists sys' : Points,
    crashExplosionSystem (particles (triggerCrashExplosion d pos w)) = Some sys' /\
    NoDup written /\ length written = 2400%nat /\
    (forall i, i ∈ written ->
       (i < MAX_EXPLOSION_PARTICLES)%nat /\
       startTimes sys' !! i = Some triggerTime /\
       alphas sys' !! i = Some 1 /\
       positions sys' !! i = Some pos) /\
    (forall i, i ∉ written -> slot sys' i = slot sys i) /\
    length (filter (fun i => i ∉ written) (seq 0 MAX_EXPLOSION_PARTICLES)) = 100%nat /\
    currentExplosionIndex (particles (triggerCrashExplosion d pos w))
      = ((idx + 2400) mod MAX_EXPLOSION_PARTICLES)%nat.
Proof.
  intros Hsys Htex Hcount Hcap Hidx idx T written.
  pose proof burst_fits as Hfit.
  assert (0 < MAX_EXPLOSION_PARTICLES)%nat as Hpos by lia.
  unfold triggerCrashExplosion. rewrite Hsys, Htex.
  run_clock.
  rewrite (burst_count _ Hcount).
  match goal with |- context [for_loop 2400 ?b ?s] =>
    pose proof (explosion_burst (controlParams w) pos T 2400 sys idx
                  (set_elapsedTime T
                     (console_log "--- Triggering Crash Explosion ---" (host w)))
                  Hfit Hcap Hidx) as Hb;
    cbv zeta in Hb;
    change (for_loop 2400 b s) with
      (for_loop 2400 (fun _ : nat => explosionEmit (controlParams w) pos T)
         (sys, idx,
          set_elapsedTime T (console_log "--- Triggering Crash Explosion ---" (host w))))
  end.
  destruct (for_loop 2400 _ _) as [[sys' idx'] h'].
  cbn [fst snd] in Hb. destruct Hb as (Hcap' & Hidx' & Hw & Ho).
  assert (forall i, i ∈ written <->
            exists k, (k < 2400)%nat /\ i = ((idx + k) mod MAX_EXPLOSION_PARTICLES)%nat)
    as Hmem.
  { intros i. unfold written. rewrite list_elem_of_fmap. split.
    - intros (k & -> & Hk). apply elem_of_seq in Hk. exists k. split; [lia | reflexivity].
    - intros (k & Hk & ->). exists k. split; [reflexivity |]. apply elem_of_seq. lia. }
  assert (NoDup written) as Hnd.
  { unfold written. apply NoDup_fmap_2_strong; [| apply NoDup_seq].
    intros k k' Hk Hk' Heq. apply elem_of_seq in Hk, Hk'.
    apply ring_index_inj in Heq; lia. }
  assert (length written = 2400%nat) as Hlen
    by (unfold written; rewrite length_fmap, length_seq; reflexivity).
  exists sys'.
  cbn [particles set_host set_particles crashExplosionSystem currentExplosionIndex].
  split; [reflexivity |]. split; [exact Hnd |]. split; [exact Hlen |].
  split; [| split; [| split]].
  - intros i Hi. apply Hmem in Hi as (k & Hk & ->).
    split; [apply ring_index_lt; exact Hpos | apply Hw; exact Hk].
  - intros i Hi. apply Ho. intros k Hk ->. apply Hi. apply Hmem. eauto.
  - rewrite (untouched_count MAX_EXPLOSION_PARTICLES 2400 written Hnd Hlen).
    + vm_compute. reflexivity.
    + intros i Hi. apply Hmem in Hi as (k & Hk & ->). apply ring_index_lt; exact Hpos.
  - exact Hidx'.
Qed.

(** ** Retirement *)





















(** ** Idle decay over a frame *)

Lemma length_along_x (c : R) : 0 <= c -> V3.length (vec3 c 0 0) = c.
Proof.
  intros Hc. unfold V3.length, V3.lengthSq. cbn [v_x v_y v_z].
  replace (c * c + 0 * 0 + 0 * 0) with (c * c) by ring.
  apply sqrt_square. exact Hc.
Qed.

Lemma idleWorld_scenario : idleScenario TouchControlsRev idleWorld idlePose.
Proof.
  unfold idleScenario. repeat split; try reflexivity.
  right. cbn [idlePose position v_y]. lra.
Qed.

Lemma frameTime_hitch : frameTime hitchFrame = 0.1.
Proof. unfold frameTime, hitchFrame. cbn [d_animate]. apply Rmin_left. lra. Qed.

(** C2, as stated, fails: in its scenario a frame of 0.1 s takes the
    speed from 0.3 to 0.2565, a factor 0.855, because linear drag acts
    before the decay. *)
Lemma idle_decay_factor_is_not_09 :
  idleScenario TouchControlsRev idleWorld idlePose /\
  minSpeed (controlParams idleWorld) = 0.5 /\
  V3.length (playerVelocity (flight (animate hitchFrame idleWorld)))
    <> 0.9 * V3.length (playerVelocity (flight idleWorld)).
Proof.
  split; [exact idleWorld_scenario |]. split; [reflexivity |].
  unfold animate.
  rewrite (idle_tick_velocity TouchControlsRev hitchFrame idleWorld idlePose
             idleWorld_scenario)
    by (cbn [hitchFrame d_animate]; lra).
  rewrite frameTime_hitch.
  change (playerVelocity (flight idleWorld)) with (vec3 0.3 0 0).
  rewrite !length_along_x by lra. lra.
Qed.

(** Below the epsilon without a snap: with touch controls, a speed of 0.1002
    is dragged to 0.09519 by a 0.1 s frame and the idle decay then leaves it
    alone. *)
Lemma idle_creep_example (inp : ControlInput) (q : Quaternion) :
  thrustInput inp = 0 -> brakeInput inp = false ->
  idleDecay defaultControlParams inp
    (speedCap defaultControlParams inp
       (applyForces defaultControlParams inp 0.1 q (vec3 0.1002 0 0)))
  = vec3 0.09519 0 0.
Proof.
  intros Ht Hb. rewrite applyForces_idle by assumption.
  assert (V3.multiplyScalar (vec3 0.1002 0 0)
            (1 - linearDragFactor defaultControlParams * 0.1) = vec3 0.09519 0 0) as ->
    by (apply vec3_eq; cbn -[Q2R]; lra).
  assert (V3.lengthSq (vec3 0.09519 0 0) <= 0.01) as Hsmall
    by (unfold V3.lengthSq; cbn -[Q2R]; lra).
  rewrite speedCap_within.
  - apply idleDecay_creep. exact Hsmall.
  - unfold currentMaxSpeed. cbn -[Q2R]. destruct (afterburnerInput inp); nra.
Qed.

(** C2 (amended): in the scenario (velocity (0.3, 0, 0), no thrust, no
    brake, default tuning with [minSpeed = 0.5] and [linearDragFactor = 0.5],
    no collision, frame time [dt] in [0, 0.1]) linear drag acts first and the
    idle decay then multiplies by 0.9: the velocity after the frame is
    [(0.3 * (1 - 0.5 dt) * 0.9, 0, 0)], the speed falls by the factor
    [0.9 * (1 - 0.5 dt)].  The idle decay, run on a velocity whose squared
    speed lies strictly between 0.01 and [minSpeed]², scales it by 0.9 and
    replaces it by exactly (0, 0, 0) when the scaled squared speed is below
    0.01; with touch controls a velocity of squared speed at most 0.01 is
    left as it is, in the keyboard-only revision it is scaled and snapped
    like any other below [minSpeed]. *)
Theorem idle_decay_tick (rev : Revision) (fr : Frame) (w : World) (a : Object3D) :
  idleScenario rev w a ->
  0 <= d_animate fr ->
  playerVelocity (flight (animate_rev rev fr w))
    = vec3 (0.3 * (1 - 0.5 * frameTime fr) * 0.9) 0 0 /\
  V3.length (playerVelocity (flight (animate_rev rev fr w)))
    = 0.9 * (1 - 0.5 * frameTime fr) * V3.length (playerVelocity (flight w)) /\
  (forall (cp : ControlParams) (inp : ControlInput) (v : Vector3),
      thrustInput inp < 0.1 -> brakeInput inp = false ->
      0.01 < V3.lengthSq v < minSpeed cp * minSpeed cp ->
      idleDecay cp inp v =
        if decide (V3.lengthSq (V3.multiplyScalar v 0.9) < 0.01) then V3.zero
        else V3.multiplyScalar v 0.9) /\
  (forall (cp : ControlParams) (inp : ControlInput) (v : Vector3),
      V3.lengthSq v <= 0.01 -> idleDecay cp inp v = v) /\
  (forall (cp : ControlParams) (v : Vector3),
      V3.lengthSq v < minSpeed cp * minSpeed cp ->
      idleDecay_kbd cp false v =
        if decide (V3.lengthSq (V3.multiplyScalar v 0.9) < 0.01) then V3.zero
        else V3.multiplyScalar v 0.9).
Proof.
  intros Hsc Hd.
  pose proof (idle_tick_velocity rev fr w a Hsc Hd) as Hv.
  pose proof (frameTime_range fr Hd) as Hdt.
  split; [exact Hv |]. split; [| split; [| split]].
  - rewrite Hv. destruct Hsc as (_&_&_&->&_).
    rewrite !length_along_x by nra. ring.
  - intros cp inp v. apply idleDecay_in_band.
  - intros cp inp v. apply idleDecay_creep.
  - intros cp v. apply idleDecay_kbd_below.
Qed.

Lemma idle_decay_tick_witness :
  playerVelocity (flight (animate_rev TouchControlsRev frame60 idleWorld))
    = vec3 (0.3 * (1 - 0.5 * frameTime frame60) * 0.9) 0 0.
Proof.
  apply (idle_decay_tick TouchControlsRev frame60 idleWorld idlePose).
  - unfold idleScenario. repeat split; try reflexivity.
    right. cbn [idlePose position v_y]. lra.
  - cbn [frame60 d_animate]. lra.
Defined.

(** ** Crash entry, single trigger *)

Lemma collisionCheck_enters d w a :
  groundProximity w a -> isCrashing (flight w) = false ->
  collisionCheck d w = enterCrash d a w.
Proof.
  intros (Ea & Hterrain & Hlow & Hfast) Hfly.
  unfold collisionCheck. rewrite Ea, Hterrain. cbv zeta.
  rewrite decide_True by exact Hlow. rewrite decide_True by exact Hfast.
  rewrite Hfly. reflexivity.
Qed.

Lemma run_cons rev e es w : run rev (e :: es) w = run rev es (step rev e w).
Proof. reflexivity. Qed.

Lemma noReset_cons e es : noReset (e :: es) -> ~ isTimer e /\ noReset es.
Proof.
  unfold noReset. rewrite Forall_cons. intros [H1 H2].
  split; [destruct e; cbn in *; tauto | exact H2].
Qed.

(** C4: the crash-entry sequence runs when a flying aircraft meets the
    ground-proximity condition (flag set, one crash message, one explosion
    burst, aircraft hidden, velocities zeroed, one timer scheduled and
    stored); a frame that begins with the flag set changes neither flight
    state, console, timers nor the explosion write cursor, and its particle
    buffers are those of the particle updates alone; and over any run of
    frames and input events without a timer callback, the sequence has run
    exactly once if the run ends in the crashing state and not at all
    otherwise, however long the aircraft stays below the ground line. *)
Theorem crash_entry_exactly_once (rev : Revision) :
  (forall (d : R) (w : World) (a : Object3D),
      groundProximity w a -> isCrashing (flight w) = false ->
      entersCrash w (collisionCheck d w) /\ ranSince w (collisionCheck d w) 1) /\
  (forall (fr : Frame) (w : World),
      isCrashing (flight w) = true ->
      staysCrashing w (animate_rev rev fr w) /\
      ranSince w (animate_rev rev fr w) 0 /\
      particles (animate_rev rev fr w) = particles (afterEffects rev fr w)) /\
  (forall (es : list Event) (w : World),
      noReset es -> isCrashing (flight w) = true ->
      isCrashing (flight (run rev es w)) = true /\ ranSince w (run rev es w) 0) /\
  (forall (es : list Event) (w : World),
      noReset es -> isCrashing (flight w) = false ->
      ranSince w (run rev es w) (if isCrashing (flight (run rev es w)) then 1 else 0)) /\
  (forall (fr : Frame) (es : list Event) (w : World),
      noReset es -> isCrashing (flight w) = false ->
      isCrashing (flight (animate_rev rev fr w)) = true ->
      isCrashing (flight (run rev (AnimationFrame fr :: es) w)) = true /\
      ranSince w (run rev (AnimationFrame fr :: es) w) 1).
Proof.
  assert (forall w w', staysCrashing w w' -> ranSince w w' 0) as Hzero.
  { intros w w' (_ & Hc & Hn & _). unfold ranSince, crashLog, triggerLog.
    rewrite Hc, Hn. cbn. destruct (explosionReady w); repeat split; lia. }
  split; [| split; [| split; [| split]]].
  - intros d w a Hprox Hfly.
    rewrite (collisionCheck_enters d w a Hprox Hfly).
    pose proof (enterCrash_enters d a w) as He. split; [exact He |].
    destruct He as (_ & Hc & Hn & _). unfold ranSince, crashLog, triggerLog.
    rewrite Hc, Hn, !occurrences_app, crashMessages_crash, crashMessages_trigger.
    cbn. destruct (explosionReady w); repeat split; lia.
  - intros fr w Hc.
    destruct (animate_while_crashing rev fr w Hc) as [_ Hs].
    split; [exact Hs |]. split; [apply Hzero; exact Hs |].
    pose proof (animate_rev_core rev fr w) as (_&_&Hp&_).
    rewrite Hp. unfold afterPhysics. rewrite Hc. reflexivity.
  - intros es w Hn Hc. destruct (run_crash rev es w Hn) as (_ & H & _). apply H. exact Hc.
  - intros es w Hn Hc. destruct (run_crash rev es w Hn) as (_ & _ & H). apply H. exact Hc.
  - intros fr es w Hn Hfly Hin.
    assert (noReset (AnimationFrame fr :: es)) as Hn'
      by (unfold noReset in *; apply Forall_cons; split; [exact I | exact Hn]).
    assert (isCrashing (flight (run rev (AnimationFrame fr :: es) w)) = true) as Hend.
    { rewrite run_cons. cbn [step].
      destruct (run_crash rev es (animate_rev rev fr w) Hn) as (_ & H & _).
      apply H. exact Hin. }
    split; [exact Hend |].
    destruct (run_crash rev (AnimationFrame fr :: es) w Hn') as (_ & _ & H).
    specialize (H Hfly). rewrite Hend in H. exact H.
Qed.

Lemma crash_entry_exactly_once_witness :
  staysCrashing (set_isCrashing true startWorld)
    (animate_rev TouchControlsRev frame60 (set_isCrashing true startWorld)).
Proof.
  apply (crash_entry_exactly_once TouchControlsRev).
  reflexivity.
Defined.

(** ** Witnesses *)

Lemma worldWrap_teleports_witness :
  v_x (worldWrap (vec3 (WORLD_BOUNDARY + 5) 100 0)) = - WORLD_BOUNDARY + 1.
Proof.
  apply (proj1 (worldWrap_teleports (vec3 (WORLD_BOUNDARY + 5) 100 0))).
  reflexivity.
Defined.

Lemma speed_cap_invariant_witness :
  V3.length
    (playerVelocity
       (flight
          (run TouchControlsRev
             [KeyDown " " false; KeyDown "shift" true;
              AnimationFrame frame60; AnimationFrame hitchFrame]
             startWorld)))
    <= maxSpeed (controlParams startWorld) * afterburnerMultiplier (controlParams startWorld)
       + 0.
Proof.
  apply (speed_cap_invariant TouchControlsRev
           [KeyDown " " false; KeyDown "shift" true;
            AnimationFrame frame60; AnimationFrame hitchFrame]
           startWorld 0).
  - unfold capParamsOk. cbn -[Q2R]. lra.
  - lra.
  - reflexivity.
Defined.

Lemma crashing_frame_freezes_aircraft_witness :
  flight (animate_rev TouchControlsRev frame60 (set_isCrashing true startWorld))
    = flight (set_isCrashing true startWorld).
Proof.
  apply (crashing_frame_freezes_aircraft TouchControlsRev frame60
           (set_isCrashing true startWorld)).
  reflexivity.
Defined.

Lemma yaw_never_driven_witness :
  exists c : R, -1 <= c <= 1 /\
    (angularAdjustFactor (controlParams startWorld) <= 10 -> 0 <= c) /\
    v_y (playerAngularVelocity (flight (animate_rev TouchControlsRev frame60 startWorld)))
      = c * v_y (playerAngularVelocity (flight startWorld)).
Proof.
  apply (yaw_never_driven TouchControlsRev).
  - cbn [frame60 d_animate]. lra.
  - cbn -[Q2R]. lra.
  - cbn -[Q2R]. lra.
Defined.

Lemma explosion_burst_slots_witness :
  exists sys' : Points,
    crashExplosionSystem
      (particles (triggerCrashExplosion 0 (vec3 0 10 0) startWorld)) = Some sys' /\
    startTimes sys' !! 0%nat = Some (elapsedTime (host startWorld) + 0) /\
    slot sys' 2400 = slot (createCrashExplosionSystem defaultControlParams) 2400.
Proof.
  destruct (explosion_burst_slots 0 (vec3 0 10 0) startWorld
              (createCrashExplosionSystem defaultControlParams))
    as (sys' & Hs & Hnd & Hlen & Hw & Ho & _).
  - reflexivity.
  - reflexivity.
  - reflexivity.
  - apply createPoints_capacity.
  - apply Nat.ltb_lt. vm_compute. reflexivity.
  - exists sys'. split; [exact Hs |]. split.
    + apply (Hw 0%nat). apply list_elem_of_fmap. exists 0%nat. split.
      * symmetry. apply Nat.mod_small. apply Nat.ltb_lt. vm_compute. reflexivity.
      * apply elem_of_seq. lia.
    + apply Ho. intros Hin. apply list_elem_of_fmap in Hin as (k & Hk & Hin).
      apply elem_of_seq in Hin.
      change (currentExplosionIndex (particles startWorld)) with 0%nat in Hk.
      rewrite Nat.add_0_l, Nat.mod_small in Hk by (pose proof burst_fits; lia). lia.
Defined.

